(** * Leaderboard synchronisation of the face-matching game

    A shallow embedding of the client-side [LeaderboardManager]
    (src/unnamed/part_000), of the spreadsheet-backed ranking service
    (src/netlify/functions/scores.js and the Express twin
    src/builds/003_facegame/server.js) and of the blob-store helpers
    (src/builds/003_facegame/netlify/utils/scoresDb.js), followed by the
    properties of the specification that concern them.

    Modelling conventions.
    - A score is an integer ([Z]); the game only produces integers, so the
      double arithmetic of [b.score - a.score] is exact.
    - A date is the epoch-millisecond value of the ISO-8601 string that
      [new Date().toISOString()] produces; [new Date(b.date) - new Date(a.date)]
      is then the difference of the two values.
    - The clock, the network and the storage services are oracles: every
      operation receives the reading or the answer it would observe.
    - A string handed to [JSON.parse] is classified by what the parser makes
      of it ([text]); no parser is run.
    - [getKVStore] of the blob library is an oracle as well: it hands
      back the store or throws, the same way at every call of one
      invocation. *)

From Stdlib Require Import ZArith Lia Sorted.
From stdpp Require Import base strings list gmap.

(** ** JavaScript values crossing the HTTP boundary *)

(** A field of a request payload, after [JSON.parse] and destructuring.
    [VUndefined] is a field the payload lacks; [VObject] stands for any
    object or array (always truthy, never inspected further). *)
Inductive jsval : Type :=
| VUndefined
| VNull
| VBool (b : bool)
| VNum (n : Z)
| VStr (s : string)
| VObject.

(** ToBoolean. *)
Definition truthy (v : jsval) : bool :=
  match v with
  | VUndefined | VNull => false
  | VBool b => b
  | VNum n => negb (n =? 0)%Z
  | VStr s => negb (String.eqb s "")
  | VObject => true
  end.

(** The [typeof] operator. *)
Definition typeof (v : jsval) : string :=
  match v with
  | VUndefined => "undefined"
  | VNull | VObject => "object"
  | VBool _ => "boolean"
  | VNum _ => "number"
  | VStr _ => "string"
  end.

(** Strict equality of a value with a string ([row[0] === mode]). *)
Definition strict_eq_str (v : jsval) (s : string) : bool :=
  match v with
  | VStr s' => String.eqb s' s
  | _ => false
  end.

(** ** Score entries and JSON documents *)

(** One element of a ranked list. The blob store and the Manager build
    [{name, score, date}]; the spreadsheet service builds
    [{mode, name, score, date}], hence the optional field. *)
Record ScoreEntry : Type := {
  e_mode : option jsval;
  e_name : jsval;
  e_score : Z;
  e_date : Z
}.

(** The JSON documents exchanged by the components: an array of entries,
    the acknowledgement [{success: true}], or [{error: msg}]. *)
Inductive json : Type :=
| Scores (l : list ScoreEntry)
| Success
| ErrorMsg (msg : string).

(** A string seen through [JSON.parse]: either the serialisation of a
    document, or a string the parser rejects. *)
Inductive text : Type :=
| Stringified (d : json)
| Malformed (s : string).

Inductive exn : Type :=
| SyntaxError
| TypeError
| NetworkError
| BackendError.

Inductive outcome (A : Type) : Type :=
| Return (a : A)
| Throw (e : exn).
Arguments Return {A} a.
Arguments Throw {A} e.

Definition JSON_stringify (d : json) : text := Stringified d.

Definition JSON_parse (t : text) : outcome json :=
  match t with
  | Stringified d => Return d
  | Malformed _ => Throw SyntaxError
  end.

(** ToBoolean of what [getItem] or [store.get] hands back: [null] and the
    empty string are falsy, every other string is truthy. *)
Definition truthy_text (o : option text) : bool :=
  match o with
  | None => false
  | Some (Stringified _) => true
  | Some (Malformed s) => negb (String.eqb s "")
  end.

(** ** Array.prototype.sort and truncation *)

(** [sort] is stable; for a consistent comparator its result is the stable
    insertion of every element, a negative or zero [cmp x y] keeping [x]
    in front of [y]. *)
Fixpoint insert_by {A : Type} (cmp : A -> A -> Z) (x : A) (l : list A) : list A :=
  match l with
  | [] => [x]
  | y :: l' => if (cmp x y <=? 0)%Z then x :: y :: l' else y :: insert_by cmp x l'
  end.

Definition sort {A : Type} (cmp : A -> A -> Z) (l : list A) : list A :=
  foldr (insert_by cmp) [] l.

(** The comparator shared by the Manager's fallback and the blob store:
    score descending, then date descending. *)
Definition compareScores (a b : ScoreEntry) : Z :=
  if negb (e_score b =? e_score a)%Z
  then (e_score b - e_score a)%Z
  else (e_date b - e_date a)%Z.

(** The comparator of the spreadsheet service: score descending only. *)
Definition compareByScore (a b : ScoreEntry) : Z :=
  (e_score b - e_score a)%Z.

(** [if (scores.length > 10) scores.length = 10]. *)
Definition truncate (l : list ScoreEntry) : list ScoreEntry :=
  if 10 <? length l then take 10 l else l.

(** ** Computations that read and write a state and may throw *)

Definition M (S A : Type) : Type := S -> outcome A * S.

Definition ret {S A : Type} (a : A) : M S A := fun w => (Return a, w).

Definition bind {S A B : Type} (c : M S A) (k : A -> M S B) : M S B :=
  fun w =>
    match c w with
    | (Return a, w') => k a w'
    | (Throw e, w') => (Throw e, w')
    end.

Definition throw {S A : Type} (e : exn) : M S A := fun w => (Throw e, w).

(** [try { body } catch (error) { handler }]. *)
Definition try_catch {S A : Type} (body : M S A) (handler : exn -> M S A) : M S A :=
  fun w =>
    match body w with
    | (Return a, w') => (Return a, w')
    | (Throw e, w') => handler e w'
    end.

Notation "'let!' x ':=' c 'in' k" := (bind c (fun x => k))
  (at level 10, x name, c at level 100, k at level 200).
Notation "c ;; k" := (bind c (fun _ => k))
  (at level 100, k at level 200, right associativity).

(** ** Requests *)

(** The object obtained from a request body by
    [const { mode, name, score } = JSON.parse(body)]. *)
Record payload : Type := {
  p_mode : jsval;
  p_name : jsval;
  p_score : jsval
}.

(** A request body: a string that [JSON.parse] rejects (or parses to
    [null], whose destructuring throws as well), or an object read through
    its three fields. *)
Inductive event_body : Type :=
| Unparseable
| Payload (p : payload).

(** ** The browser side: LeaderboardManager *)

Module Manager.

Record LeaderboardManager : Type := {
  easyModeScores : json;
  hardModeScores : json
}.

(** What the page can observe the Manager doing, in program order. *)
Inductive effect : Type :=
| Fetch (url : string) (method : string) (body : option payload)
| SetItem (key : string) (value : text)
| GetItem (key : string)
| Console (level : string) (message : string).

Record Browser : Type := {
  this : LeaderboardManager;
  localStorage : gmap string text;
  effects : list effect
}.

(** The answer of the network to the single [fetch] of an operation:
    the promise rejects, or a response arrives. *)
Inductive fetched : Type :=
| Rejected
| Response (status : Z) (body : text).

Definition emit (e : effect) : M Browser unit :=
  fun w => (Return tt,
            {| this := this w; localStorage := localStorage w;
               effects := effects w ++ [e] |}).

Definition get_this : M Browser LeaderboardManager := fun w => (Return (this w), w).

Definition set_this (m : LeaderboardManager) : M Browser unit :=
  fun w => (Return tt,
            {| this := m; localStorage := localStorage w; effects := effects w |}).

(** [await fetch(url, {method, body})]. *)
Definition fetch (net : fetched) (url method : string) (body : option payload)
  : M Browser fetched :=
  emit (Fetch url method body) ;;
  match net with
  | Rejected => throw NetworkError
  | Response _ _ => ret net
  end.

(** [response.ok]: the status is in the range 200-299. *)
Definition ok (r : fetched) : bool :=
  match r with
  | Rejected => false
  | Response status _ => (200 <=? status)%Z && (status <=? 299)%Z
  end.

(** [await response.json()]. *)
Definition response_json (r : fetched) : M Browser json :=
  match r with
  | Rejected => throw NetworkError
  | Response _ body =>
      match JSON_parse body with
      | Return d => ret d
      | Throw e => throw e
      end
  end.

Definition localStorage_setItem (key : string) (value : text) : M Browser unit :=
  fun w => (Return tt,
            {| this := this w;
               localStorage := <[key := value]> (localStorage w);
               effects := effects w ++ [SetItem key value] |}).

Definition localStorage_getItem (key : string) : M Browser (option text) :=
  fun w => (Return (localStorage w !! key),
            {| this := this w; localStorage := localStorage w;
               effects := effects w ++ [GetItem key] |}).

Definition console (level message : string) : M Browser unit :=
  emit (Console level message).

(** [if (mode === 'easy') this.easyModeScores = v; else this.hardModeScores = v]. *)
Definition assign (mode : string) (v : json) : M Browser unit :=
  let! m := get_this in
  if String.eqb mode "easy"
  then set_this {| easyModeScores := v; hardModeScores := hardModeScores m |}
  else set_this {| easyModeScores := easyModeScores m; hardModeScores := v |}.

Definition scores_url : string := "/.netlify/functions/scores".

Definition loadScores (net : fetched) (mode : string) : M Browser unit :=
  let! returned :=
    try_catch
      (let! response := fetch net (scores_url +:+ "?mode=" +:+ mode) "GET" None in
       if ok response then
         let! scores := response_json response in
         assign mode scores ;;
         localStorage_setItem ("leaderboard_" +:+ mode) (JSON_stringify scores) ;;
         ret true
       else ret false)
      (fun error =>
         console "warn" "Failed to load scores from API, falling back to cache:" ;;
         ret false) in
  if (returned : bool) then ret tt
  else
    let! cachedScores := localStorage_getItem ("leaderboard_" +:+ mode) in
    let! scores := (if truthy_text cachedScores
               then match cachedScores with
                    | Some t => match JSON_parse t with
                                | Return d => ret d
                                | Throw e => throw e
                                end
                    | None => ret (Scores [])
                    end
               else ret (Scores [])) in
    assign mode scores.

Definition saveScores (mode : string) (scores : json) : M Browser unit :=
  localStorage_setItem ("leaderboard_" +:+ mode) (JSON_stringify scores).

Definition getScores (m : LeaderboardManager) (mode : string) : json :=
  if String.eqb mode "easy" then easyModeScores m else hardModeScores m.

(** [now] is the reading of [new Date()] in the fallback. The array is
    the one the Manager holds: [push], [sort] and the truncation mutate
    it in place, so the field sees the result. A value that is not an
    array has no [push]: the call throws. *)
Definition addScore (net : fetched) (now : Z) (mode : string) (name : jsval)
    (score : Z) : M Browser unit :=
  let! returned :=
    try_catch
      (let! response := fetch net scores_url "POST"
                     (Some {| p_mode := VStr mode; p_name := name;
                              p_score := VNum score |}) in
       if ok response then
         let! updatedScores := response_json response in
         assign mode updatedScores ;;
         saveScores mode updatedScores ;;
         ret true
       else ret false)
      (fun error =>
         console "warn" "Failed to save score to API, using local storage only:" ;;
         ret false) in
  if (returned : bool) then ret tt
  else
    let! m := get_this in
    match getScores m mode with
    | Scores scores =>
        let pushed := scores ++ [{| e_mode := None; e_name := name;
                                    e_score := score; e_date := now |}] in
        let sorted := sort compareScores pushed in
        let kept := truncate sorted in
        assign mode (Scores kept) ;;
        saveScores mode (Scores kept)
    | _ => throw TypeError
    end.

Definition clearScores (net : fetched) (mode : string) : M Browser unit :=
  assign mode (Scores []) ;;
  saveScores mode (Scores []) ;;
  try_catch
    (fetch net (scores_url +:+ "/clear") "POST"
       (Some {| p_mode := VStr mode; p_name := VUndefined;
                p_score := VUndefined |}) ;;
     ret tt)
    (fun error => console "warn" "Failed to clear scores on API:").

(** [scores.length] and [scores[scores.length - 1].score]; a value that
    is not an array has no [length]: the comparisons with [undefined]
    are false. *)
Definition isHighScore (mode : string) (score : Z) : M Browser bool :=
  let! m := get_this in
  let scores := getScores m mode in
  let isHigh :=
    match scores with
    | Scores l =>
        let lowestScore :=
          if 0 <? length l
          then match last l with Some e => e_score e | None => 0%Z end
          else 0%Z in
        (length l <? 10) || (lowestScore <? score)%Z
    | _ => (0 <? score)%Z
    end in
  console "log" ("High score check for " +:+ mode +:+ " mode:") ;;
  ret isHigh.

(** [new LeaderboardManager()]: both fields start empty and the two
    loads are started without being awaited, so a load that fails only
    leaves an unhandled rejection behind. *)
Definition constructor (net_easy net_hard : fetched)
    (storage : gmap string text) : Browser :=
  let w0 := {| this := {| easyModeScores := Scores []; hardModeScores := Scores [] |};
               localStorage := storage; effects := [] |} in
  let w1 := snd (loadScores net_easy "easy" w0) in
  snd (loadScores net_hard "hard" w1).

End Manager.

(** ** The spreadsheet-backed ranking service *)

(** A reply of a serverless function, [{ statusCode, body }]. *)
Record reply : Type := {
  statusCode : Z;
  body : text
}.

(** A row of [Sheet1!A:D], as appended by [[mode, name, score, date]].
    The sheet hands rows back as they were appended. *)
Record Row : Type := {
  r_mode : jsval;
  r_name : jsval;
  r_score : Z;
  r_date : Z
}.

(** [sheets.spreadsheets.values.append]; [api_up] tells whether the
    Sheets API answers or the call throws. *)
Definition values_append (api_up : bool) (row : Row) : M (list Row) unit :=
  fun sheet => if api_up then (Return tt, sheet ++ [row]) else (Throw BackendError, sheet).

(** [sheets.spreadsheets.values.get], with [result.data.values || []]. *)
Definition values_get (api_up : bool) : M (list Row) (list Row) :=
  fun sheet => if api_up then (Return sheet, sheet) else (Throw BackendError, sheet).

(** [rows.filter(row => row[0] === mode).map(...).sort(...).slice(0, 10)],
    the same expression in both spreadsheet services. *)
Definition top_rows (mode : string) (rows : list Row) : list ScoreEntry :=
  take 10
    (sort compareByScore
       (map (fun row => {| e_mode := Some (r_mode row); e_name := r_name row;
                           e_score := r_score row; e_date := r_date row |})
            (filter (fun row => strict_eq_str (r_mode row) mode = true) rows))).

Module Sheets.

(** src/netlify/functions/scores.js *)

Record event : Type := {
  httpMethod : string;
  event_payload : event_body;
  queryStringParameters : option (gmap string string)
}.

(** [(event.queryStringParameters && event.queryStringParameters.mode) || 'easy']. *)
Definition requested_mode (event : event) : string :=
  match queryStringParameters event with
  | Some params =>
      match params !! "mode" with
      | Some mode => if String.eqb mode "" then "easy" else mode
      | None => "easy"
      end
  | None => "easy"
  end.

(** [now] is the reading of [new Date()] in the POST branch. The guard
    [!mode || typeof score !== 'number'] lets through exactly a truthy
    mode together with a score that is a number. *)
Definition handler (api_up : bool) (now : Z) (event : event) : M (list Row) reply :=
  if String.eqb (httpMethod event) "POST" then
    try_catch
      (match event_payload event with
       | Unparseable => throw SyntaxError
       | Payload p =>
           match truthy (p_mode p), p_score p with
           | true, VNum score =>
               values_append api_up
                 {| r_mode := p_mode p; r_name := p_name p;
                    r_score := score; r_date := now |} ;;
               ret {| statusCode := 200; body := JSON_stringify Success |}
           | _, _ =>
               ret {| statusCode := 400;
                      body := JSON_stringify (ErrorMsg "Invalid input") |}
           end
       end)
      (fun err =>
         ret {| statusCode := 500;
                body := JSON_stringify (ErrorMsg "Failed to save score") |})
  else if String.eqb (httpMethod event) "GET" then
    try_catch
      (let mode := requested_mode event in
       let! rows := values_get api_up in
       ret {| statusCode := 200;
              body := JSON_stringify (Scores (top_rows mode rows)) |})
      (fun err =>
         ret {| statusCode := 500;
                body := JSON_stringify (ErrorMsg "Failed to load scores") |})
  else
    ret {| statusCode := 405;
           body := JSON_stringify (ErrorMsg "Method not allowed") |}.

End Sheets.

Module Express.

(** src/builds/003_facegame/server.js; [express.json()] has parsed the
    body, [res.json] answers with status 200. *)

(** [app.post('/api/scores', ...)] *)
Definition post_scores (api_up : bool) (now : Z) (req_body : payload)
  : M (list Row) reply :=
  try_catch
    (match truthy (p_mode req_body), p_score req_body with
     | true, VNum score =>
         values_append api_up
           {| r_mode := p_mode req_body; r_name := p_name req_body;
              r_score := score; r_date := now |} ;;
         ret {| statusCode := 200; body := JSON_stringify Success |}
     | _, _ =>
         ret {| statusCode := 400;
                body := JSON_stringify (ErrorMsg "Invalid input") |}
     end)
    (fun err =>
       ret {| statusCode := 500;
              body := JSON_stringify (ErrorMsg "Failed to save score") |}).

(** [req.query.mode || 'easy']. *)
Definition requested_mode (req_query : gmap string string) : string :=
  match req_query !! "mode" with
  | Some mode => if String.eqb mode "" then "easy" else mode
  | None => "easy"
  end.

(** [app.get('/api/scores', ...)] *)
Definition get_scores (api_up : bool) (req_query : gmap string string)
  : M (list Row) reply :=
  try_catch
    (let mode := requested_mode req_query in
     let! rows := values_get api_up in
     ret {| statusCode := 200;
            body := JSON_stringify (Scores (top_rows mode rows)) |})
    (fun err =>
       ret {| statusCode := 500;
              body := JSON_stringify (ErrorMsg "Failed to load scores") |}).

End Express.

(** ** The blob-store helpers *)

Module ScoresDb.

(** src/builds/003_facegame/netlify/utils/scoresDb.js *)

Record Functions : Type := {
  store : gmap string text;
  console_error : list string
}.

(** [await store.get(key)]; [up] tells whether the store answers. *)
Definition store_get (up : bool) (key : string) : M Functions (option text) :=
  fun w => if up then (Return (store w !! key), w) else (Throw BackendError, w).

(** [await store.set(key, value)]. *)
Definition store_set (up : bool) (key : string) (value : text) : M Functions unit :=
  fun w =>
    if up
    then (Return tt, {| store := <[key := value]> (store w);
                        console_error := console_error w |})
    else (Throw BackendError, w).

Definition log_error (message : string) : M Functions unit :=
  fun w => (Return tt, {| store := store w;
                          console_error := console_error w ++ [message] |}).

(** [getKVStore(STORE_NAME)]; [opened] is what the call does in the
    deployment at hand, for every call of one invocation: it hands back
    the store or it throws. *)
Definition getKVStore (opened : outcome unit) : M Functions unit :=
  fun w => (opened, w).

Definition getScores (opened : outcome unit) (get_up : bool) (mode : string)
  : M Functions json :=
  getKVStore opened ;;
  try_catch
    (let! scores := store_get get_up ("scores_" +:+ mode) in
     if truthy_text scores
     then match scores with
          | Some t => match JSON_parse t with
                      | Return d => ret d
                      | Throw e => throw e
                      end
          | None => ret (Scores [])
          end
     else ret (Scores []))
    (fun error => log_error "Error reading scores:" ;; ret (Scores [])).

Definition saveScores (opened : outcome unit) (get_up set_up : bool) (now : Z)
    (mode : string) (name : jsval) (newScore : Z) : M Functions json :=
  getKVStore opened ;;
  try_catch
    (let! scores := getScores opened get_up mode in
     match scores with
     | Scores scores =>
         let pushed := scores ++ [{| e_mode := None; e_name := name;
                                     e_score := newScore; e_date := now |}] in
         let sorted := sort compareScores pushed in
         let kept := truncate sorted in
         store_set set_up ("scores_" +:+ mode) (JSON_stringify (Scores kept)) ;;
         ret (Scores kept)
     | _ => throw TypeError
     end)
    (fun error => log_error "Error saving scores:" ;; throw error).

(** The guard of the POST branch of the function that serves this store,
    [!mode || !name || score === undefined]. *)
Definition missing_required_fields (p : payload) : bool :=
  negb (truthy (p_mode p)) || negb (truthy (p_name p))
  || match p_score p with VUndefined => true | _ => false end.

End ScoresDb.

(** ** The blob-backed function *)

Module Blobs.

(** The function that serves the blob store (the second document of
    src/remove-large-files.sh). Its payloads are taken with the types the
    Manager gives them: a mode that is a string or absent, a score that
    is an integer or absent, any name. *)

Record fields : Type := {
  f_mode : option string;
  f_name : jsval;
  f_score : option Z
}.

(** [submitted] is [None] for a body that [JSON.parse] rejects. *)
Record event : Type := {
  httpMethod : string;
  submitted : option fields;
  queryStringParameters : option (gmap string string)
}.

(** [event.queryStringParameters?.mode || 'easy']. *)
Definition requested_mode (event : event) : string :=
  match queryStringParameters event with
  | Some params =>
      match params !! "mode" with
      | Some mode => if String.eqb mode "" then "easy" else mode
      | None => "easy"
      end
  | None => "easy"
  end.

(** [opened] answers the calls of [getKVStore], [get_up] and [set_up]
    the read and the write inside [saveScores], [reread_up] the read of
    the [getScores] that follows it (and the only read of a GET). The guard
    [!mode || !name || score === undefined] lets through a non-empty mode,
    a truthy name and a score that is present. *)
Definition handler (opened : outcome unit) (get_up set_up reread_up : bool)
    (now : Z) (event : event) : M ScoresDb.Functions reply :=
  try_catch
    (if String.eqb (httpMethod event) "GET" then
       let mode := requested_mode event in
       let! scores := ScoresDb.getScores opened reread_up mode in
       ret {| statusCode := 200; body := JSON_stringify scores |}
     else if String.eqb (httpMethod event) "POST" then
       match submitted event with
       | None => throw SyntaxError
       | Some f =>
           match f_mode f, f_score f with
           | Some mode, Some score =>
               if String.eqb mode "" || negb (truthy (f_name f))
               then ret {| statusCode := 400;
                           body := JSON_stringify (ErrorMsg "Missing required fields") |}
               else
                 ScoresDb.saveScores opened get_up set_up now mode (f_name f) score ;;
                 let! updatedScores := ScoresDb.getScores opened reread_up mode in
                 ret {| statusCode := 200; body := JSON_stringify updatedScores |}
           | _, _ =>
               ret {| statusCode := 400;
                      body := JSON_stringify (ErrorMsg "Missing required fields") |}
           end
       end
     else
       ret {| statusCode := 405;
              body := JSON_stringify (ErrorMsg "Method not allowed") |})
    (fun error =>
       ret {| statusCode := 500; body := JSON_stringify (ErrorMsg "Server error") |}).

End Blobs.

(** * Notions of the specification *)

(** [a] may stand in front of [b] in a ranked list: higher score first,
    and on equal scores the more recent date first. *)
Definition ranks_before (a b : ScoreEntry) : Prop :=
  (e_score b < e_score a)%Z \/ (e_score a = e_score b /\ (e_date b <= e_date a)%Z).

(** The RankedList invariant: at most ten entries, in ranking order. *)
Definition RankedList (l : list ScoreEntry) : Prop :=
  length l <= 10 /\ StronglySorted ranks_before l.

(** A value held by the Manager that is an array obeying the invariant. *)
Definition holds_ranked (v : json) : Prop :=
  exists l, v = Scores l /\ RankedList l.

(** A response that sends [addScore] and [loadScores] to their fallback:
    a rejected [fetch] or a status outside 200-299. *)
Definition unavailable (net : Manager.fetched) : Prop := Manager.ok net = false.

(** One [addScore(mode, name, score)] call, with the network answer and
    the clock reading it meets. *)
Record call : Type := {
  c_net : Manager.fetched;
  c_now : Z;
  c_mode : string;
  c_name : jsval;
  c_score : Z
}.

Definition perform (c : call) (w : Manager.Browser) : Manager.Browser :=
  snd (Manager.addScore (c_net c) (c_now c) (c_mode c) (c_name c) (c_score c) w).

(** The browser states reached after each call of a sequence. *)
Fixpoint states_after (w : Manager.Browser) (calls : list call) : list Manager.Browser :=
  match calls with
  | [] => []
  | c :: rest => perform c w :: states_after (perform c w) rest
  end.

(** The Manager with the list of [mode] replaced by [v], as the
    assignments under [if (mode === 'easy')] leave it. *)
Definition with_scores (mode : string) (v : json) (m : Manager.LeaderboardManager)
  : Manager.LeaderboardManager :=
  if String.eqb mode "easy"
  then {| Manager.easyModeScores := v;
          Manager.hardModeScores := Manager.hardModeScores m |}
  else {| Manager.easyModeScores := Manager.easyModeScores m;
          Manager.hardModeScores := v |}.

(** The entry the fallback of [addScore] pushes. *)
Definition new_entry (name : jsval) (score now : Z) : ScoreEntry :=
  {| e_mode := None; e_name := name; e_score := score; e_date := now |}.

(** Two mode arguments that select the same field of the Manager. *)
Definition same_list (mode mode' : string) : Prop :=
  String.eqb mode "easy" = String.eqb mode' "easy".

(** A reply of a function as the browser's [fetch] receives it. *)
Definition served (r : reply) : Manager.fetched :=
  Manager.Response (statusCode r) (body r).

(** A Manager right after its fields are initialised, before any load. *)
Definition fresh (storage : gmap string text) : Manager.Browser :=
  {| Manager.this := {| Manager.easyModeScores := Scores [];
                        Manager.hardModeScores := Scores [] |};
     Manager.localStorage := storage;
     Manager.effects := [] |}.

(** The payload [addScore] sends, [{ mode, name, score }]. *)
Definition submission (mode : string) (name : jsval) (score : Z) : payload :=
  {| p_mode := VStr mode; p_name := name; p_score := VNum score |}.

(** A POST event carrying a payload, and a GET event with the given
    query-string parameters. *)
Definition post_event (p : payload) : Sheets.event :=
  {| Sheets.httpMethod := "POST"; Sheets.event_payload := Payload p;
     Sheets.queryStringParameters := None |}.

Definition get_event (params : option (gmap string string)) : Sheets.event :=
  {| Sheets.httpMethod := "GET"; Sheets.event_payload := Unparseable;
     Sheets.queryStringParameters := params |}.

(** The [mode] parameter of a query string, if there is one. *)
Definition mode_parameter (params : option (gmap string string)) : option string :=
  match params with
  | Some q => q !! "mode"
  | None => None
  end.

(** The reply to a GET that lists the entries of [mode]. *)
Definition listing (mode : string) (sheet : list Row) : reply :=
  {| statusCode := 200; body := Stringified (Scores (top_rows mode sheet)) |}.

(** A blob store with the given content and an empty error log. *)
Definition functions (content : gmap string text) : ScoresDb.Functions :=
  {| ScoresDb.store := content; ScoresDb.console_error := [] |}.

(** What a reader of a ranked list sees of an entry. *)
Definition shown (e : ScoreEntry) : jsval * Z * Z := (e_name e, e_score e, e_date e).

Definition entry (name : string) (score date : Z) : ScoreEntry :=
  new_entry (VStr name) score date.

(** The board of the specification's scenario: ten entries from A with
    50 down to J with 5, each more recent than the next. *)
Definition full_board : list ScoreEntry :=
  [entry "A" 50 10; entry "B" 40 9; entry "C" 35 8; entry "D" 30 7; entry "E" 25 6;
   entry "F" 20 5; entry "G" 15 4; entry "H" 10 3; entry "I" 8 2; entry "J" 5 1].

(** What an offline load adopts from the cache for a mode: the stored
    document, or the empty array when the entry is absent, empty or does
    not parse. *)
Definition cached (storage : gmap string text) (mode : string) : json :=
  match storage !! ("leaderboard_" +:+ mode) with
  | Some (Stringified d) => d
  | _ => Scores []
  end.

(** The entry of a listing that a row of the sheet becomes. *)
Definition entry_of_row (row : Row) : ScoreEntry :=
  {| e_mode := Some (r_mode row); e_name := r_name row;
     e_score := r_score row; e_date := r_date row |}.

(** The rows of the sheet stored under a mode. *)
Definition rows_of (mode : string) (rows : list Row) : list Row :=
  filter (fun row => strict_eq_str (r_mode row) mode = true) rows.

(** The POST event of the blob-backed function for the payload that
    [addScore] sends, and its GET event. *)
Definition blob_post (mode : string) (name : jsval) (score : Z) : Blobs.event :=
  {| Blobs.httpMethod := "POST";
     Blobs.submitted := Some {| Blobs.f_mode := Some mode; Blobs.f_name := name;
                                Blobs.f_score := Some score |};
     Blobs.queryStringParameters := None |}.

Definition blob_get (params : option (gmap string string)) : Blobs.event :=
  {| Blobs.httpMethod := "GET"; Blobs.submitted := None;
     Blobs.queryStringParameters := params |}.

Ltac run_blobs :=
  unfold Blobs.handler, blob_post, blob_get, ScoresDb.saveScores, ScoresDb.getScores,
    ScoresDb.getKVStore, ScoresDb.store_get, ScoresDb.store_set, ScoresDb.log_error,
    try_catch, bind, ret,
    throw; simpl.

(** Symbolic execution of the three components. *)
Ltac run_manager :=
  unfold Manager.addScore, Manager.loadScores, Manager.clearScores,
    Manager.isHighScore, Manager.saveScores, Manager.assign, Manager.fetch,
    Manager.response_json, Manager.console, Manager.emit, Manager.get_this,
    Manager.set_this, Manager.localStorage_setItem, Manager.localStorage_getItem,
    try_catch, bind, ret, throw; simpl.

Ltac run_service :=
  unfold Sheets.handler, Express.post_scores, Express.get_scores, post_event,
    get_event, values_append, values_get, try_catch, bind, ret, throw; simpl.

Ltac run_store :=
  unfold ScoresDb.saveScores, ScoresDb.getScores, ScoresDb.getKVStore, ScoresDb.store_get,
    ScoresDb.store_set, ScoresDb.log_error, try_catch, bind, ret, throw; simpl.

(** * Sorting facts *)

Section SortFacts.

Context {A : Type} (cmp : A -> A -> Z).

Let le (a b : A) : Prop := (cmp a b <= 0)%Z.

Hypothesis cmp_total : forall a b, (0 < cmp a b)%Z -> (cmp b a <= 0)%Z.
Hypothesis cmp_trans : forall a b c, le a b -> le b c -> le a c.

Lemma insert_by_length (x : A) (l : list A) :
  length (insert_by cmp x l) = S (length l).
Proof.
  induction l as [|y l IH]; simpl; [reflexivity|].
  destruct (cmp x y <=? 0)%Z; simpl; [reflexivity|]. now rewrite IH.
Qed.

Lemma sort_length (l : list A) : length (sort cmp l) = length l.
Proof.
  unfold sort. induction l as [|x l IH]; simpl; [reflexivity|].
  now rewrite insert_by_length, IH.
Qed.

Lemma insert_by_Forall (P : A -> Prop) (x : A) (l : list A) :
  P x -> Forall P l -> Forall P (insert_by cmp x l).
Proof.
  intros Hx Hl. induction Hl as [|y l Hy Hl IH]; simpl.
  - constructor; [assumption | constructor].
  - destruct (cmp x y <=? 0)%Z; repeat constructor; assumption.
Qed.

Lemma insert_by_sorted (x : A) (l : list A) :
  StronglySorted le l -> StronglySorted le (insert_by cmp x l).
Proof.
  induction 1 as [|y l Hs IH Hy]; simpl.
  - repeat constructor.
  - destruct (cmp x y <=? 0)%Z eqn:E.
    + apply Z.leb_le in E. constructor.
      * constructor; assumption.
      * constructor; [exact E|].
        eapply Forall_impl; [exact Hy|]. intros z Hz. exact (cmp_trans _ _ _ E Hz).
    + apply Z.leb_gt in E. constructor; [exact IH|].
      apply insert_by_Forall; [|exact Hy]. apply cmp_total. exact E.
Qed.

Lemma sort_sorted (l : list A) : StronglySorted le (sort cmp l).
Proof.
  unfold sort. induction l as [|x l IH]; simpl; [constructor|].
  apply insert_by_sorted. exact IH.
Qed.

End SortFacts.

Lemma compareScores_le (a b : ScoreEntry) :
  (compareScores a b <= 0)%Z <-> ranks_before a b.
Proof.
  unfold compareScores, ranks_before.
  destruct (e_score b =? e_score a)%Z eqn:E; simpl.
  - apply Z.eqb_eq in E. lia.
  - apply Z.eqb_neq in E. lia.
Qed.

Lemma compareScores_total (a b : ScoreEntry) :
  (0 < compareScores a b)%Z -> (compareScores b a <= 0)%Z.
Proof.
  intros H. apply compareScores_le.
  assert (~ ranks_before a b) as N by (rewrite <- compareScores_le; lia).
  unfold ranks_before in *. lia.
Qed.

Lemma compareScores_trans (a b c : ScoreEntry) :
  (compareScores a b <= 0)%Z -> (compareScores b c <= 0)%Z ->
  (compareScores a c <= 0)%Z.
Proof.
  rewrite !compareScores_le. unfold ranks_before. lia.
Qed.

Lemma StronglySorted_ext {A : Type} (R R' : A -> A -> Prop) (l : list A) :
  (forall a b, R a b -> R' a b) -> StronglySorted R l -> StronglySorted R' l.
Proof.
  intros HR. induction 1 as [|x l Hs IH Hx]; constructor; [exact IH|].
  eapply Forall_impl; [exact Hx|]. intros; now apply HR.
Qed.

Lemma sort_compareScores_sorted (l : list ScoreEntry) :
  StronglySorted ranks_before (sort compareScores l).
Proof.
  eapply StronglySorted_ext; [|apply sort_sorted].
  - intros a b H. apply compareScores_le. exact H.
  - apply compareScores_total.
  - apply compareScores_trans.
Qed.

Lemma StronglySorted_take {A : Type} (R : A -> A -> Prop) (n : nat) (l : list A) :
  StronglySorted R l -> StronglySorted R (take n l).
Proof.
  intros H. revert n. induction H as [|x l Hs IH Hx]; intros [|n]; simpl;
    try constructor.
  - apply IH.
  - apply Forall_take. exact Hx.
Qed.

Lemma truncate_length (l : list ScoreEntry) : length (truncate l) <= 10.
Proof.
  unfold truncate. destruct (10 <? length l) eqn:E.
  - rewrite length_take. lia.
  - apply Nat.ltb_ge in E. exact E.
Qed.

Lemma truncate_sorted (R : ScoreEntry -> ScoreEntry -> Prop) (l : list ScoreEntry) :
  StronglySorted R l -> StronglySorted R (truncate l).
Proof.
  intros H. unfold truncate. destruct (10 <? length l); [|exact H].
  now apply StronglySorted_take.
Qed.

(** Push, sort and truncate yield a ranked list whatever the array held. *)
Lemma ranked_after_push (e : ScoreEntry) (l : list ScoreEntry) :
  RankedList (truncate (sort compareScores (l ++ [e]))).
Proof.
  split; [apply truncate_length|].
  apply truncate_sorted, sort_compareScores_sorted.
Qed.

(** * The Manager *)

Lemma getScores_with_scores (mode : string) (v : json) (m : Manager.LeaderboardManager) :
  Manager.getScores (with_scores mode v m) mode = v.
Proof.
  unfold Manager.getScores, with_scores. destruct (String.eqb mode "easy"); reflexivity.
Qed.

Lemma getScores_with_scores_same (mode mode' : string) (v : json)
    (m : Manager.LeaderboardManager) :
  String.eqb mode' "easy" = String.eqb mode "easy" ->
  Manager.getScores (with_scores mode v m) mode' = v.
Proof.
  unfold Manager.getScores, with_scores. intros ->.
  destruct (String.eqb mode "easy"); reflexivity.
Qed.

Lemma getScores_with_scores_other (mode mode' : string) (v : json)
    (m : Manager.LeaderboardManager) :
  String.eqb mode' "easy" <> String.eqb mode "easy" ->
  Manager.getScores (with_scores mode v m) mode' = Manager.getScores m mode'.
Proof.
  unfold Manager.getScores, with_scores.
  destruct (String.eqb mode "easy"), (String.eqb mode' "easy"); simpl; congruence.
Qed.

(** The fallback of [addScore] on the Manager's fields. *)
Lemma addScore_fallback_this (net : Manager.fetched) (now : Z) (mode : string)
    (name : jsval) (score : Z) (w : Manager.Browser) :
  unavailable net ->
  Manager.this (snd (Manager.addScore net now mode name score w)) =
  match Manager.getScores (Manager.this w) mode with
  | Scores l =>
      with_scores mode
        (Scores (truncate (sort compareScores (l ++ [new_entry name score now]))))
        (Manager.this w)
  | _ => Manager.this w
  end.
Proof.
  unfold unavailable. intros Hnet. run_manager.
  destruct net as [|status body]; simpl in *.
  - destruct (Manager.getScores (Manager.this w) mode); simpl; try reflexivity.
    unfold with_scores. destruct (String.eqb mode "easy"); reflexivity.
  - rewrite Hnet. simpl.
    destruct (Manager.getScores (Manager.this w) mode); simpl; try reflexivity.
    unfold with_scores. destruct (String.eqb mode "easy"); reflexivity.
Qed.

(** One fallback call ranks the list of its mode, whatever array was held. *)
Lemma addScore_fallback_establishes (c : call) (w : Manager.Browser)
    (l : list ScoreEntry) :
  unavailable (c_net c) ->
  Manager.getScores (Manager.this w) (c_mode c) = Scores l ->
  holds_ranked (Manager.getScores (Manager.this (perform c w)) (c_mode c)).
Proof.
  intros Hnet Hl. unfold perform.
  rewrite addScore_fallback_this by exact Hnet. rewrite Hl.
  rewrite getScores_with_scores. eexists; split; [reflexivity|].
  apply ranked_after_push.
Qed.

(** One fallback call keeps every ranked list ranked. *)
Lemma addScore_fallback_preserves (c : call) (w : Manager.Browser) (mode : string) :
  unavailable (c_net c) ->
  holds_ranked (Manager.getScores (Manager.this w) mode) ->
  holds_ranked (Manager.getScores (Manager.this (perform c w)) mode).
Proof.
  intros Hnet Hr. unfold perform.
  rewrite addScore_fallback_this by exact Hnet.
  destruct (bool_decide (String.eqb mode "easy" = String.eqb (c_mode c) "easy")) eqn:E.
  - apply bool_decide_eq_true in E.
    assert (Manager.getScores (Manager.this w) (c_mode c)
            = Manager.getScores (Manager.this w) mode) as Hsame
      by (unfold Manager.getScores; now rewrite E).
    rewrite Hsame. destruct Hr as (l & Hl & _). rewrite Hl.
    rewrite getScores_with_scores_same by exact E.
    eexists; split; [reflexivity|]. apply ranked_after_push.
  - apply bool_decide_eq_false in E.
    destruct (Manager.getScores (Manager.this w) (c_mode c)); try exact Hr.
    rewrite getScores_with_scores_other by exact E. exact Hr.
Qed.

Lemma addScore_fallback_invariant (calls : list call) (w : Manager.Browser)
    (mode : string) :
  Forall (fun c => unavailable (c_net c)) calls ->
  holds_ranked (Manager.getScores (Manager.this w) mode) ->
  Forall (fun w' => holds_ranked (Manager.getScores (Manager.this w') mode))
         (states_after w calls).
Proof.
  intros Hcalls. revert w.
  induction Hcalls as [|c rest Hc Hrest IH]; intros w Hw; simpl.
  - constructor.
  - assert (holds_ranked (Manager.getScores (Manager.this (perform c w)) mode)) as Hw'
      by (apply addScore_fallback_preserves; assumption).
    constructor; [exact Hw'|]. apply IH. exact Hw'.
Qed.

(** C2. For every mode and every sequence of [addScore] calls that all
    meet an unavailable remote service, the array the Manager holds for
    that mode has, after each call, at most ten entries and is sorted by
    score descending and, on equal scores, by date descending. This holds
    when the array obeyed the invariant before the sequence (as the empty
    array of a new Manager does), and also from any array whatever once
    the first call of the sequence is for that mode. *)
Theorem addScore_fallback_ranked (calls : list call) (w : Manager.Browser)
    (mode : string) (held : list ScoreEntry) :
  Forall (fun c => unavailable (c_net c)) calls ->
  Manager.getScores (Manager.this w) mode = Scores held ->
  RankedList held \/ (exists c, head calls = Some c /\ same_list (c_mode c) mode) ->
  Forall (fun w' => holds_ranked (Manager.getScores (Manager.this w') mode))
         (states_after w calls).
Proof.
  intros Hcalls Hheld [Hranked | (c & Hhead & Hsame)].
  - apply addScore_fallback_invariant; [exact Hcalls|].
    exists held. split; assumption.
  - destruct calls as [|c' rest]; [discriminate|].
    simpl in Hhead. injection Hhead as ->.
    apply Forall_cons in Hcalls as [Hc Hrest]. simpl.
    assert (holds_ranked (Manager.getScores (Manager.this (perform c w)) mode)) as Hw'.
    { assert (Manager.getScores (Manager.this w) (c_mode c) = Scores held) as Hc'
        by (unfold Manager.getScores in *; now rewrite Hsame).
      destruct (addScore_fallback_establishes c w held Hc Hc') as (l & Hl & Hr).
      exists l. split; [|exact Hr].
      unfold Manager.getScores in *. now rewrite <- Hsame. }
    constructor; [exact Hw'|].
    apply addScore_fallback_invariant; assumption.
Qed.

(** A new Manager, offline: K, then a tie on the score of K, then a call
    for the other mode. *)
Lemma addScore_fallback_ranked_witness :
  Forall (fun w' => holds_ranked (Manager.getScores (Manager.this w') "easy"))
    (states_after (fresh ∅)
       [ {| c_net := Manager.Rejected; c_now := 1000; c_mode := "easy";
            c_name := VStr "K"; c_score := 45 |};
         {| c_net := Manager.Response 500 (Stringified (ErrorMsg "Failed to save score"));
            c_now := 2000; c_mode := "easy"; c_name := VStr "L"; c_score := 45 |};
         {| c_net := Manager.Rejected; c_now := 3000; c_mode := "hard";
            c_name := VStr "M"; c_score := 7 |} ]).
Proof.
  apply (addScore_fallback_ranked _ (fresh ∅) "easy" []).
  - repeat constructor.
  - reflexivity.
  - left. split; [simpl; lia | constructor].
Defined.

(** ** isHighScore *)

Lemma last_is_Some {A : Type} (l : list A) : 0 < length l -> is_Some (last l).
Proof.
  destruct l as [|x l]; simpl; [lia|]. intros _.
  rewrite last_cons. destruct (last l); eauto.
Qed.

(** C5. When the Manager holds an array for the mode, [isHighScore]
    answers true for every score, negative ones included, while the
    array has fewer than ten entries; with exactly ten entries it answers
    true exactly when the score is strictly above the score of the last
    entry. It leaves the Manager's fields and the local cache as they
    were and issues no request and no cache access: its only trace is one
    diagnostic console line. *)
Theorem isHighScore_spec (mode : string) (s : Z) (w : Manager.Browser)
    (l : list ScoreEntry) :
  Manager.getScores (Manager.this w) mode = Scores l ->
  exists (answer : bool) (w' : Manager.Browser),
    Manager.isHighScore mode s w = (Return answer, w') /\
    (length l < 10 -> answer = true) /\
    (length l = 10 ->
       exists lowest, last l = Some lowest /\
                      (answer = true <-> (e_score lowest < s)%Z)) /\
    Manager.this w' = Manager.this w /\
    Manager.localStorage w' = Manager.localStorage w /\
    Manager.effects w' =
      Manager.effects w
      ++ [Manager.Console "log" ("High score check for " +:+ mode +:+ " mode:")].
Proof.
  intros Hl. run_manager. rewrite Hl.
  eexists. eexists. split; [reflexivity|]. simpl.
  split; [|split; [|auto]].
  - intros Hlt. apply Nat.ltb_lt in Hlt. rewrite Hlt. reflexivity.
  - intros Hten.
    destruct (last_is_Some l) as [lowest Hlast]; [lia|].
    exists lowest. split; [exact Hlast|].
    rewrite Hlast, Hten. simpl. apply Z.ltb_lt.
Qed.

(** The empty hard list of a new Manager accepts the score -3. *)
Lemma isHighScore_spec_witness :
  exists (answer : bool) (w' : Manager.Browser),
    Manager.isHighScore "hard" (-3) (fresh ∅) = (Return answer, w') /\
    (length (@nil ScoreEntry) < 10 -> answer = true) /\
    (length (@nil ScoreEntry) = 10 ->
       exists lowest, last (@nil ScoreEntry) = Some lowest /\
                      (answer = true <-> (e_score lowest < -3)%Z)) /\
    Manager.this w' = Manager.this (fresh ∅) /\
    Manager.localStorage w' = Manager.localStorage (fresh ∅) /\
    Manager.effects w' =
      Manager.effects (fresh ∅)
      ++ [Manager.Console "log" ("High score check for " +:+ "hard" +:+ " mode:")].
Proof.
  apply (isHighScore_spec "hard" (-3) (fresh ∅) []). reflexivity.
Defined.

(** ** clearScores *)



(** ** Mode arguments other than 'easy' *)

Lemma eqb_easy_false (mode : string) : mode <> "easy" -> String.eqb mode "easy" = false.
Proof. intros H. now apply String.eqb_neq. Qed.



(** ** addScore when the remote service answers *)

(** Whatever document a successful response carries becomes the value
    the Manager holds for the mode and the content of the cache entry. *)
Lemma addScore_adopts_body (status : Z) (d : json) (now : Z) (mode : string)
    (name : jsval) (score : Z) (w : Manager.Browser) :
  (200 <= status <= 299)%Z ->
  Manager.addScore (Manager.Response status (Stringified d)) now mode name score w =
  (Return tt,
   {| Manager.this := with_scores mode d (Manager.this w);
      Manager.localStorage :=
        <["leaderboard_" +:+ mode := Stringified d]> (Manager.localStorage w);
      Manager.effects :=
        Manager.effects w
        ++ [Manager.Fetch Manager.scores_url "POST" (Some (submission mode name score));
            Manager.SetItem ("leaderboard_" +:+ mode) (Stringified d)] |}).
Proof.
  intros Hstatus. run_manager.
  assert ((200 <=? status)%Z && (status <=? 299)%Z = true) as ->
    by (apply andb_true_iff; split; apply Z.leb_le; lia).
  simpl. unfold with_scores, submission, JSON_stringify.
  destruct (String.eqb mode "easy"); simpl; rewrite <- app_assoc; reflexivity.
Qed.

(** C1 on the spreadsheet-backed function. The function accepts the
    submission of A with score 5 for 'easy' and answers 200 with
    [{success: true}]; [addScore] then holds that acknowledgement, not an
    array, as the easy list and writes it to the cache entry. *)
Theorem addScore_adopts_acknowledgement :
  exists (r : reply) (w' : Manager.Browser),
    Sheets.handler true 1000 (post_event (submission "easy" (VStr "A") 5)) [] =
      (Return r,
       [{| r_mode := VStr "easy"; r_name := VStr "A"; r_score := 5; r_date := 1000 |}]) /\
    statusCode r = 200%Z /\
    body r = Stringified Success /\
    Manager.addScore (served r) 1001 "easy" (VStr "A") 5 (fresh ∅) = (Return tt, w') /\
    Manager.getScores (Manager.this w') "easy" = Success /\
    Manager.localStorage w' !! "leaderboard_easy" = Some (Stringified Success).
Proof.
  eexists. eexists. split; [reflexivity|].
  split; [reflexivity|]. split; [reflexivity|].
  split; [reflexivity|]. split; reflexivity.
Qed.

(** What follows the adoption of the acknowledgement: the next fallback
    of [addScore] has no array to push to and throws, and [isHighScore]
    turns down every score that is not positive. *)
Example after_acknowledgement :
  let w := snd (Manager.addScore (Manager.Response 200 (Stringified Success)) 1001
                  "easy" (VStr "A") 5 (fresh ∅)) in
  fst (Manager.addScore Manager.Rejected 2000 "easy" (VStr "B") 9 w) = Throw TypeError /\
  fst (Manager.isHighScore "easy" 0 w) = Return false.
Proof. vm_compute. split; reflexivity. Qed.

(** ** loadScores *)

(** With the remote service unavailable and a cache entry that does not
    parse, the load ends in the parser's exception and assigns nothing. *)
Lemma loadScores_unparseable_cache (net : Manager.fetched) (mode s : string)
    (w : Manager.Browser) :
  unavailable net ->
  Manager.localStorage w !! ("leaderboard_" +:+ mode) = Some (Malformed s) ->
  s <> "" ->
  fst (Manager.loadScores net mode w) = Throw SyntaxError /\
  Manager.this (snd (Manager.loadScores net mode w)) = Manager.this w.
Proof.
  unfold unavailable. intros Hnet Hcache Hs. apply String.eqb_neq in Hs.
  run_manager. destruct net as [|status body]; simpl in *.
  - rewrite Hcache. simpl. rewrite Hs. simpl. split; reflexivity.
  - rewrite Hnet. simpl. rewrite Hcache. simpl. rewrite Hs. simpl. split; reflexivity.
Qed.

(** With the remote service unavailable and no cache entry, the load
    completes and the Manager holds the empty array for the mode. *)
Lemma loadScores_absent_cache (net : Manager.fetched) (mode : string)
    (w : Manager.Browser) :
  unavailable net ->
  Manager.localStorage w !! ("leaderboard_" +:+ mode) = None ->
  fst (Manager.loadScores net mode w) = Return tt /\
  Manager.this (snd (Manager.loadScores net mode w)) =
    with_scores mode (Scores []) (Manager.this w).
Proof.
  unfold unavailable. intros Hnet Hcache.
  run_manager. unfold with_scores.
  destruct net as [|status body]; simpl in *.
  - rewrite Hcache. simpl. destruct (String.eqb mode "easy"); split; reflexivity.
  - rewrite Hnet. simpl. rewrite Hcache. simpl.
    destruct (String.eqb mode "easy"); split; reflexivity.
Qed.

(** C6 at a new Manager, a rejected fetch and the cache entry [{oops]
    for 'easy': the load throws [SyntaxError] after the warning of the
    failed fetch and the cache read, and assigns nothing. *)
Theorem loadScores_corrupt_cache_throws :
  let w := fresh {["leaderboard_easy" := Malformed "{oops"]} in
  Manager.loadScores Manager.Rejected "easy" w =
  (Throw SyntaxError,
   {| Manager.this := Manager.this w;
      Manager.localStorage := Manager.localStorage w;
      Manager.effects :=
        [Manager.Fetch "/.netlify/functions/scores?mode=easy" "GET" None;
         Manager.Console "warn" "Failed to load scores from API, falling back to cache:";
         Manager.GetItem "leaderboard_easy"] |}).
Proof. reflexivity. Qed.

(** The same storage seen from the constructor: both loads are started
    and their outcome is dropped, so the fields keep the empty arrays
    they were initialised with. *)
Example constructor_with_corrupt_cache :
  Manager.this (Manager.constructor Manager.Rejected Manager.Rejected
                  {["leaderboard_easy" := Malformed "{oops"]}) =
  {| Manager.easyModeScores := Scores []; Manager.hardModeScores := Scores [] |}.
Proof. reflexivity. Qed.

(** * The spreadsheet-backed service *)

Lemma typeof_number (v : jsval) : typeof v = "number" <-> exists n, v = VNum n.
Proof.
  split.
  - destruct v; simpl; try discriminate. eauto.
  - intros [n ->]. reflexivity.
Qed.

(** A submission without a truthy mode, or whose score is not a number,
    is answered with 400 and appends nothing. *)
Lemma post_rejects_invalid (api_up : bool) (now : Z) (p : payload) (sheet : list Row) :
  truthy (p_mode p) = false \/ typeof (p_score p) <> "number" ->
  Sheets.handler api_up now (post_event p) sheet =
    (Return {| statusCode := 400; body := Stringified (ErrorMsg "Invalid input") |},
     sheet) /\
  Express.post_scores api_up now p sheet =
    (Return {| statusCode := 400; body := Stringified (ErrorMsg "Invalid input") |},
     sheet).
Proof.
  intros H. run_service.
  destruct (truthy (p_mode p)) eqn:Hm.
  - destruct H as [H|H]; [discriminate|].
    destruct (p_score p); simpl in *; try (split; reflexivity). now destruct H.
  - destruct (p_score p); split; reflexivity.
Qed.

(** A submission with a truthy mode and a numeric score is appended and
    acknowledged, whatever its name field holds. *)
Lemma post_accepts (now : Z) (p : payload) (score : Z) (sheet : list Row) :
  truthy (p_mode p) = true ->
  p_score p = VNum score ->
  let row := {| r_mode := p_mode p; r_name := p_name p;
                r_score := score; r_date := now |} in
  Sheets.handler true now (post_event p) sheet =
    (Return {| statusCode := 200; body := Stringified Success |}, sheet ++ [row]) /\
  Express.post_scores true now p sheet =
    (Return {| statusCode := 200; body := Stringified Success |}, sheet ++ [row]).
Proof.
  intros Hm Hs. run_service. rewrite Hm, Hs. split; reflexivity.
Qed.

(** C4 at the payload [{mode: 'easy', score: 5}], which lacks a name:
    both spreadsheet services answer 200 and append a row whose name is
    undefined, where the guard of the blob-backed function counts the
    payload as missing a required field. *)
Theorem post_without_name_is_accepted :
  let p := {| p_mode := VStr "easy"; p_name := VUndefined; p_score := VNum 5 |} in
  let row := {| r_mode := VStr "easy"; r_name := VUndefined;
                r_score := 5; r_date := 1000 |} in
  Sheets.handler true 1000 (post_event p) [] =
    (Return {| statusCode := 200; body := Stringified Success |}, [row]) /\
  Express.post_scores true 1000 p [] =
    (Return {| statusCode := 200; body := Stringified Success |}, [row]) /\
  ScoresDb.missing_required_fields p = true.
Proof.
  repeat split; reflexivity.
Qed.

(** ** The mode of a GET request *)

Lemma sort_Forall {A : Type} (cmp : A -> A -> Z) (P : A -> Prop) (l : list A) :
  Forall P l -> Forall P (sort cmp l).
Proof.
  unfold sort. induction 1 as [|x l Hx Hl IH]; simpl; [constructor|].
  now apply insert_by_Forall.
Qed.

Lemma strict_eq_str_true (v : jsval) (s : string) :
  strict_eq_str v s = true -> v = VStr s.
Proof.
  destruct v; simpl; try discriminate. intros H. apply String.eqb_eq in H. now subst.
Qed.

(** Every entry of the list served for a mode carries that very mode. *)
Lemma top_rows_mode (mode : string) (rows : list Row) :
  Forall (fun e => e_mode e = Some (VStr mode)) (top_rows mode rows).
Proof.
  unfold top_rows. apply Forall_take, sort_Forall.
  apply Forall_forall. intros e He.
  apply list_elem_of_fmap in He as (row & -> & Hrow).
  apply list_elem_of_filter in Hrow as [Hrow _]. simpl.
  now rewrite (strict_eq_str_true _ _ Hrow).
Qed.

Lemma top_rows_length (mode : string) (rows : list Row) :
  length (top_rows mode rows) <= 10.
Proof. unfold top_rows. rewrite length_take. lia. Qed.

Lemma top_rows_sorted (mode : string) (rows : list Row) :
  StronglySorted (fun a b => (e_score b <= e_score a)%Z) (top_rows mode rows).
Proof.
  unfold top_rows. apply StronglySorted_take.
  eapply StronglySorted_ext; [|apply sort_sorted].
  - unfold compareByScore. intros a b H. simpl in H. lia.
  - unfold compareByScore. intros; lia.
  - unfold compareByScore. intros; lia.
Qed.

(** The claim of C8 fails for an unknown mode: with one easy row in the
    sheet, a GET for 'medium' is answered with the empty list, a GET for
    'easy' with the row. *)
Lemma unknown_mode_is_not_easy :
  let sheet := [{| r_mode := VStr "easy"; r_name := VStr "A";
                   r_score := 5; r_date := 1000 |}] in
  fst (Sheets.handler true 0 (get_event (Some {["mode" := "medium"]})) sheet) =
    Return {| statusCode := 200; body := Stringified (Scores []) |} /\
  fst (Sheets.handler true 0 (get_event (Some {["mode" := "easy"]})) sheet) =
    Return {| statusCode := 200;
              body := Stringified (Scores [{| e_mode := Some (VStr "easy");
                                              e_name := VStr "A";
                                              e_score := 5; e_date := 1000 |}]) |} /\
  fst (Sheets.handler true 0 (get_event (Some {["mode" := "medium"]})) sheet) <>
  fst (Sheets.handler true 0 (get_event (Some {["mode" := "easy"]})) sheet).
Proof.
  vm_compute. repeat split; try reflexivity. discriminate.
Qed.

(** C8, amended. A GET whose mode parameter is missing or empty is
    answered as a GET for 'easy'. A GET with any other mode value, known
    or not, is answered with the top ten rows stored under that very
    value, each entry carrying it. Both spreadsheet services agree. *)
Theorem get_serves_requested_mode (api_up : bool) (now : Z) (sheet : list Row)
    (params : option (gmap string string)) (query : gmap string string) :
  (mode_parameter params = None \/ mode_parameter params = Some "" ->
   Sheets.handler api_up now (get_event params) sheet =
   Sheets.handler api_up now (get_event (Some {["mode" := "easy"]})) sheet) /\
  (query !! "mode" = None \/ query !! "mode" = Some "" ->
   Express.get_scores api_up query sheet =
   Express.get_scores api_up {["mode" := "easy"]} sheet) /\
  (forall mode, mode_parameter params = Some mode -> mode <> "" ->
   Sheets.handler true now (get_event params) sheet = (Return (listing mode sheet), sheet)) /\
  (forall mode, query !! "mode" = Some mode -> mode <> "" ->
   Express.get_scores true query sheet = (Return (listing mode sheet), sheet)) /\
  (forall mode, Forall (fun e => e_mode e = Some (VStr mode)) (top_rows mode sheet)).
Proof.
  split; [|split; [|split; [|split]]].
  - intros H. run_service. unfold Sheets.requested_mode, mode_parameter in *. simpl.
    destruct params as [q|]; [|reflexivity].
    destruct H as [-> | ->]; reflexivity.
  - intros H. run_service. unfold Express.requested_mode.
    destruct H as [-> | ->]; reflexivity.
  - intros mode Hm Hne. apply String.eqb_neq in Hne.
    run_service. unfold Sheets.requested_mode, mode_parameter, listing in *. simpl.
    destruct params as [q|]; [|discriminate]. rewrite Hm, Hne. reflexivity.
  - intros mode Hm Hne. apply String.eqb_neq in Hne.
    run_service. unfold Express.requested_mode, listing. rewrite Hm, Hne. reflexivity.
  - intros mode. apply top_rows_mode.
Qed.

(** No parameters at all are served as 'easy'; 'medium' is served the
    rows of 'medium'. *)
Lemma get_serves_requested_mode_witness :
  let sheet := [{| r_mode := VStr "medium"; r_name := VStr "A";
                   r_score := 5; r_date := 1000 |}] in
  Sheets.handler true 0 (get_event None) sheet =
    Sheets.handler true 0 (get_event (Some {["mode" := "easy"]})) sheet /\
  Express.get_scores true {["mode" := "medium"]} sheet =
    (Return (listing "medium" sheet), sheet).
Proof.
  intros sheet.
  destruct (get_serves_requested_mode true 0 sheet None {["mode" := "medium"]})
    as (Hmissing & _ & _ & Hquery & _).
  split.
  - apply Hmissing. left. reflexivity.
  - apply Hquery; [reflexivity | discriminate].
Defined.

(** * The blob store *)

(** The claim of C10 fails when [getKVStore] throws: the call stands
    before the [try], so its exception leaves [getScores]. *)
Lemma getScores_throws_with_getKVStore :
  ScoresDb.getScores (Throw TypeError) true "easy" (functions ∅) =
    (Throw TypeError, functions ∅) /\
  ~ (exists scores, fst (ScoresDb.getScores (Throw TypeError) true "easy" (functions ∅))
                    = Return scores).
Proof.
  split; [reflexivity|]. intros [scores H]. discriminate H.
Qed.

(** C10, amended. [getScores] of the blob store throws only what
    [getKVStore] throws, and then before reading or logging anything.
    Once [getKVStore] has handed back the store it returns for every
    mode and every state of the store: an absent value gives the empty
    list; a read that raises, like a stored string that does not parse,
    is logged and gives the empty list; the store itself is not
    written. *)
Theorem getScores_throws_only_from_getKVStore (opened : outcome unit) (get_up : bool)
    (mode : string) (w : ScoresDb.Functions) :
  (forall e, opened = Throw e ->
   ScoresDb.getScores opened get_up mode w = (Throw e, w)) /\
  (opened = Return tt ->
   exists (scores : json) (w' : ScoresDb.Functions),
     ScoresDb.getScores opened get_up mode w = (Return scores, w') /\
     ScoresDb.store w' = ScoresDb.store w /\
     (get_up = true -> ScoresDb.store w !! ("scores_" +:+ mode) = None ->
      scores = Scores [] /\ w' = w) /\
     (get_up = false ->
      scores = Scores [] /\
      ScoresDb.console_error w' = ScoresDb.console_error w ++ ["Error reading scores:"]) /\
     (forall s, get_up = true ->
      ScoresDb.store w !! ("scores_" +:+ mode) = Some (Malformed s) -> s <> "" ->
      scores = Scores [] /\
      ScoresDb.console_error w' = ScoresDb.console_error w ++ ["Error reading scores:"]) /\
     (forall d, get_up = true ->
      ScoresDb.store w !! ("scores_" +:+ mode) = Some (Stringified d) ->
      scores = d /\ w' = w)).
Proof.
  split; [intros e ->; reflexivity|]. intros ->.
  run_store. destruct get_up; simpl.
  - destruct (ScoresDb.store w !! ("scores_" +:+ mode)) as [[d|s]|] eqn:E; simpl.
    + eexists. eexists. split; [reflexivity|]. split; [reflexivity|].
      repeat split; try discriminate; congruence.
    + destruct (String.eqb s "") eqn:Es; simpl.
      * apply String.eqb_eq in Es. subst s.
        eexists. eexists. split; [reflexivity|]. split; [reflexivity|].
        repeat split; try discriminate; congruence.
      * eexists. eexists. split; [reflexivity|]. split; [reflexivity|].
        repeat split; try discriminate; congruence.
    + eexists. eexists. split; [reflexivity|]. split; [reflexivity|].
      repeat split; try discriminate; congruence.
  - eexists. eexists. split; [reflexivity|]. split; [reflexivity|].
    repeat split; try discriminate; congruence.
Qed.

(** A store whose value for 'easy' does not parse, a store that cannot
    be read, and a [getKVStore] that throws. *)
Lemma getScores_throws_only_from_getKVStore_witness :
  fst (ScoresDb.getScores (Return tt) true "easy"
         (functions {["scores_easy" := Malformed "{oops"]})) = Return (Scores []) /\
  fst (ScoresDb.getScores (Return tt) false "hard" (functions ∅)) = Return (Scores []) /\
  fst (ScoresDb.getScores (Throw BackendError) true "hard" (functions ∅)) = Throw BackendError.
Proof.
  split; [|split].
  - destruct (getScores_throws_only_from_getKVStore (Return tt) true "easy"
                (functions {["scores_easy" := Malformed "{oops"]})) as [_ H].
    destruct (H eq_refl) as (scores & w' & -> & _ & _ & _ & Hbad & _).
    destruct (Hbad "{oops") as [-> _]; [reflexivity | reflexivity | discriminate |].
    reflexivity.
  - destruct (getScores_throws_only_from_getKVStore (Return tt) false "hard" (functions ∅))
      as [_ H].
    destruct (H eq_refl) as (scores & w' & -> & _ & _ & Hdown & _).
    destruct Hdown as [-> _]; reflexivity.
  - destruct (getScores_throws_only_from_getKVStore (Throw BackendError) true "hard"
                (functions ∅)) as [H _].
    rewrite (H BackendError eq_refl). reflexivity.
Defined.

(** X21. Once [getKVStore] has handed back a store that answers,
    [saveScores] answers with the list it stored, which obeys the
    RankedList invariant whatever array the store held before. *)
Lemma saveScores_returns_ranked (now : Z) (mode : string) (name : jsval)
    (newScore : Z) (w : ScoresDb.Functions) (held : list ScoreEntry) :
  ScoresDb.store w !! ("scores_" +:+ mode) = Some (Stringified (Scores held)) \/
  (ScoresDb.store w !! ("scores_" +:+ mode) = None /\ held = []) ->
  exists kept w',
    ScoresDb.saveScores (Return tt) true true now mode name newScore w
    = (Return (Scores kept), w') /\
    kept = truncate (sort compareScores (held ++ [new_entry name newScore now])) /\
    RankedList kept /\
    ScoresDb.store w' !! ("scores_" +:+ mode) = Some (Stringified (Scores kept)).
Proof.
  intros H. run_store. unfold JSON_stringify.
  destruct H as [E | [E ->]]; rewrite E; simpl;
    eexists; eexists; (split; [reflexivity|]); (split; [reflexivity|]).
  - split; [apply (ranked_after_push (new_entry name newScore now) held)|].
    simpl. apply lookup_insert_eq.
  - split; [exact (ranked_after_push (new_entry name newScore now) [])|].
    simpl. apply lookup_insert_eq.
Qed.

(** * The two backends side by side *)

(** C3 at two submissions for 'easy' with the same score, A at time
    1000 and then B at time 2000, with [getKVStore] handing back a store
    that answers. The blob store answers each submission
    with the updated list and ranks the more recent B first; the
    spreadsheet service answers each submission with [{success: true}],
    lists A before B, and adds a [mode] field to every entry. *)
Theorem backends_disagree :
  exists (kv1 kv2 : ScoresDb.Functions) (posted1 posted2 listed_kv : list ScoreEntry)
         (r1 r2 r3 : reply) (sheet1 sheet2 : list Row) (listed_sheet : list ScoreEntry),
    ScoresDb.saveScores (Return tt) true true 1000 "easy" (VStr "A") 5 (functions ∅) =
      (Return (Scores posted1), kv1) /\
    ScoresDb.saveScores (Return tt) true true 2000 "easy" (VStr "B") 5 kv1 =
      (Return (Scores posted2), kv2) /\
    ScoresDb.getScores (Return tt) true "easy" kv2 = (Return (Scores listed_kv), kv2) /\
    Sheets.handler true 1000 (post_event (submission "easy" (VStr "A") 5)) [] =
      (Return r1, sheet1) /\
    Sheets.handler true 2000 (post_event (submission "easy" (VStr "B") 5)) sheet1 =
      (Return r2, sheet2) /\
    Sheets.handler true 3000 (get_event (Some {["mode" := "easy"]})) sheet2 =
      (Return r3, sheet2) /\
    body r3 = Stringified (Scores listed_sheet) /\
    map shown listed_kv = [(VStr "B", 5%Z, 2000%Z); (VStr "A", 5%Z, 1000%Z)] /\
    map shown listed_sheet = [(VStr "A", 5%Z, 1000%Z); (VStr "B", 5%Z, 2000%Z)] /\
    map e_mode listed_kv = [None; None] /\
    map e_mode listed_sheet = [Some (VStr "easy"); Some (VStr "easy")] /\
    posted2 = listed_kv /\
    body r2 = Stringified Success.
Proof.
  do 11 eexists.
  split; [reflexivity|]. split; [reflexivity|]. split; [reflexivity|].
  split; [reflexivity|]. split; [reflexivity|]. split; [reflexivity|].
  split; [reflexivity|]. repeat split; reflexivity.
Qed.

(** What the two backends do share: the list a GET serves has at most
    ten entries and is in descending order of score. *)
Lemma listing_is_bounded_and_descending (mode : string) (sheet : list Row) :
  length (top_rows mode sheet) <= 10 /\
  StronglySorted (fun a b => (e_score b <= e_score a)%Z) (top_rows mode sheet).
Proof. split; [apply top_rows_length | apply top_rows_sorted]. Qed.

(** * Scenarios of the specification *)

(** K with 45 lands between A and B and pushes J out. *)
Example submit_into_full_board :
  let w := {| Manager.this := {| Manager.easyModeScores := Scores full_board;
                                 Manager.hardModeScores := Scores [] |};
              Manager.localStorage := ∅; Manager.effects := [] |} in
  Manager.getScores
    (Manager.this (snd (Manager.addScore Manager.Rejected 11 "easy" (VStr "K") 45 w)))
    "easy" =
  Scores [entry "A" 50 10; entry "K" 45 11; entry "B" 40 9; entry "C" 35 8;
          entry "D" 30 7; entry "E" 25 6; entry "F" 20 5; entry "G" 15 4;
          entry "H" 10 3; entry "I" 8 2].
Proof. reflexivity. Qed.

(** A with 0 on an empty board. *)
Example submit_into_empty_board :
  Manager.getScores
    (Manager.this (snd (Manager.addScore Manager.Rejected 11 "easy" (VStr "A") 0
                          (fresh ∅))))
    "easy" = Scores [entry "A" 0 11].
Proof. reflexivity. Qed.

(** On a full board whose last score is 5, the score 5 does not qualify
    and 6 does. *)
Example full_board_threshold :
  let w := {| Manager.this := {| Manager.easyModeScores := Scores full_board;
                                 Manager.hardModeScores := Scores [] |};
              Manager.localStorage := ∅; Manager.effects := [] |} in
  fst (Manager.isHighScore "easy" 5 w) = Return false /\
  fst (Manager.isHighScore "easy" 6 w) = Return true.
Proof. split; reflexivity. Qed.

(** * Further properties of the Manager *)

(** ** What the push, sort and truncation keep *)

Lemma insert_by_Permutation {A : Type} (cmp : A -> A -> Z) (x : A) (l : list A) :
  insert_by cmp x l ≡ₚ x :: l.
Proof.
  induction l as [|y l IH]; simpl; [reflexivity|].
  destruct (cmp x y <=? 0)%Z; [reflexivity|].
  rewrite IH. apply perm_swap.
Qed.

Lemma sort_Permutation {A : Type} (cmp : A -> A -> Z) (l : list A) :
  sort cmp l ≡ₚ l.
Proof.
  unfold sort. induction l as [|x l IH]; simpl; [reflexivity|].
  rewrite insert_by_Permutation. now rewrite IH.
Qed.

(** A list already in order is left as it is. *)
Lemma sort_sorted_id {A : Type} (cmp : A -> A -> Z) (l : list A) :
  StronglySorted (fun a b => (cmp a b <= 0)%Z) l -> sort cmp l = l.
Proof.
  unfold sort. induction 1 as [|x l Hs IH Hx]; simpl; [reflexivity|].
  rewrite IH. destruct Hx as [|y l Hy _]; simpl; [reflexivity|].
  apply Z.leb_le in Hy. now rewrite Hy.
Qed.

Lemma StronglySorted_snoc {A : Type} (R : A -> A -> Prop) (l : list A) (x : A) :
  StronglySorted R l -> Forall (fun y => R y x) l -> StronglySorted R (l ++ [x]).
Proof.
  induction 1 as [|y l Hs IH Hy]; intros Hx; simpl.
  - repeat constructor.
  - apply Forall_cons in Hx as [Hyx Hx]. constructor; [now apply IH|].
    apply Forall_app. split; [exact Hy | now constructor].
Qed.

Lemma StronglySorted_before_last {A : Type} (R : A -> A -> Prop) (l : list A) (x : A) :
  StronglySorted R (l ++ [x]) -> Forall (fun y => R y x) l.
Proof.
  induction l as [|y l IH]; simpl; intros H; [constructor|].
  apply StronglySorted_inv in H as [Hs Hy]. constructor.
  - apply Forall_app in Hy as [_ Hx]. now apply Forall_cons in Hx as [Hx _].
  - now apply IH.
Qed.

Lemma ranks_before_trans (a b c : ScoreEntry) :
  ranks_before a b -> ranks_before b c -> ranks_before a c.
Proof. unfold ranks_before. lia. Qed.

Lemma ranks_before_refl (a : ScoreEntry) : ranks_before a a.
Proof. unfold ranks_before. lia. Qed.

Lemma truncate_room (l : list ScoreEntry) : length l <= 10 -> truncate l = l.
Proof.
  intros H. unfold truncate. destruct (10 <? length l) eqn:E; [|reflexivity].
  apply Nat.ltb_lt in E. lia.
Qed.

(** Length and content of what push, sort and truncation produce. *)
Lemma push_sort_truncate_content (e : ScoreEntry) (l : list ScoreEntry) :
  let kept := truncate (sort compareScores (l ++ [e])) in
  length kept = Nat.min 10 (S (length l)) /\
  (forall x, x ∈ kept -> x = e \/ x ∈ l) /\
  (length l < 10 -> kept ≡ₚ e :: l).
Proof.
  intros kept.
  assert (sort compareScores (l ++ [e]) ≡ₚ e :: l) as Hperm
    by (rewrite sort_Permutation; symmetry; apply Permutation_cons_append).
  assert (length (sort compareScores (l ++ [e])) = S (length l)) as Hlen
    by (rewrite sort_length, length_app; simpl; lia).
  split; [|split].
  - unfold kept, truncate. rewrite Hlen.
    destruct (10 <? S (length l)) eqn:E.
    + apply Nat.ltb_lt in E. rewrite length_take, Hlen. lia.
    + apply Nat.ltb_ge in E. rewrite Hlen. lia.
  - intros x Hx. unfold kept, truncate in Hx.
    assert (x ∈ sort compareScores (l ++ [e])) as Hin.
    { destruct (10 <? length (sort compareScores (l ++ [e]))); [|exact Hx].
      apply elem_of_take in Hx as (i & Hi & _). eapply list_elem_of_lookup_2, Hi. }
    rewrite Hperm in Hin. apply elem_of_cons in Hin. exact Hin.
  - intros Hroom. unfold kept. rewrite truncate_room by lia. exact Hperm.
Qed.

(** The new entry is kept when the list has room, and also on a list of
    ten as soon as one of its entries does not rank before it. *)
Lemma new_entry_is_kept (e : ScoreEntry) (l : list ScoreEntry) :
  length l <= 10 ->
  length l < 10 \/ (exists z, z ∈ l /\ ~ ranks_before z e) ->
  e ∈ truncate (sort compareScores (l ++ [e])).
Proof.
  intros Hlen H.
  assert (sort compareScores (l ++ [e]) ≡ₚ l ++ [e]) as Hperm by apply sort_Permutation.
  assert (length (sort compareScores (l ++ [e])) = S (length l)) as Hl
    by (rewrite sort_length, length_app; simpl; lia).
  destruct (decide (length l < 10)) as [Hroom|Hfull].
  - rewrite truncate_room by lia. rewrite Hperm. apply elem_of_app. right.
    now apply list_elem_of_singleton.
  - destruct H as [H|(z & Hz & Hrank)]; [contradiction|].
    assert (length l = 10) as Hten by lia.
    unfold truncate. rewrite Hl, Hten. simpl.
    pose proof (sort_compareScores_sorted (l ++ [e])) as Hsorted.
    pose proof (take_drop 10 (sort compareScores (l ++ [e]))) as Hsplit.
    assert (length (drop 10 (sort compareScores (l ++ [e]))) = 1) as Hd
      by (rewrite length_drop; lia).
    destruct (drop 10 (sort compareScores (l ++ [e]))) as [|t [|? ?]]; try discriminate.
    rewrite <- Hsplit in Hperm, Hsorted.
    assert (e ∈ take 10 (sort compareScores (l ++ [e])) ++ [t]) as Hin
      by (rewrite Hperm; apply elem_of_app; right; now apply list_elem_of_singleton).
    apply elem_of_app in Hin as [Hin|Hin]; [exact Hin|].
    apply list_elem_of_singleton in Hin. subst t.
    apply Permutation_app_inv_r in Hperm.
    apply StronglySorted_before_last in Hsorted.
    rewrite <- Hperm in Hz.
    rewrite Forall_forall in Hsorted. destruct Hrank. now apply Hsorted.
Qed.

(** On a ranked list of ten whose last entry ranks before the new one,
    the new entry is the one dropped. *)
Lemma outranked_entry_is_dropped (e z : ScoreEntry) (l : list ScoreEntry) :
  RankedList l -> length l = 10 -> last l = Some z -> ranks_before z e ->
  truncate (sort compareScores (l ++ [e])) = l.
Proof.
  intros [_ Hs] Hten Hlast Hrank.
  assert (Forall (fun y => ranks_before y e) l) as Hall.
  { apply last_Some in Hlast as [init ->].
    apply Forall_app. split; [|constructor; [exact Hrank | constructor]].
    eapply Forall_impl; [apply (StronglySorted_before_last _ _ _ Hs)|].
    intros y Hy. simpl in Hy. exact (ranks_before_trans _ _ _ Hy Hrank). }
  rewrite sort_sorted_id.
  - unfold truncate. rewrite length_app, Hten. simpl.
    rewrite take_app_length' by (symmetry; exact Hten). reflexivity.
  - eapply StronglySorted_ext; [|apply StronglySorted_snoc; [exact Hs | exact Hall]].
    intros a b. apply compareScores_le.
Qed.

(** ** The fallback of addScore *)

(** The fallback of [addScore] on an array, step by step. *)
Lemma addScore_fallback_run (net : Manager.fetched) (now : Z) (mode : string)
    (name : jsval) (score : Z) (w : Manager.Browser) (l : list ScoreEntry) :
  unavailable net ->
  Manager.getScores (Manager.this w) mode = Scores l ->
  let kept := truncate (sort compareScores (l ++ [new_entry name score now])) in
  exists trace,
    Manager.addScore net now mode name score w =
    (Return tt,
     {| Manager.this := with_scores mode (Scores kept) (Manager.this w);
        Manager.localStorage :=
          <["leaderboard_" +:+ mode := Stringified (Scores kept)]> (Manager.localStorage w);
        Manager.effects := Manager.effects w ++ trace |}).
Proof.
  intros Hnet Hl kept. unfold unavailable in Hnet. run_manager.
  unfold with_scores, JSON_stringify, kept, new_entry.
  destruct net as [|status body]; simpl in *; rewrite ?Hnet; simpl; rewrite Hl; simpl;
    destruct (String.eqb mode "easy"); simpl;
    rewrite <- ?app_assoc; eexists; reflexivity.
Qed.

(** X1. When the remote service is unavailable and the Manager holds an
    array for the mode, [addScore] returns normally and the array it
    then holds has the old length plus one, capped at ten; each of its
    entries is the new one or was held before; and while fewer than ten
    entries were held it is a rearrangement of them and the new one, so
    nothing is dropped. *)
Theorem addScore_fallback_content (net : Manager.fetched) (now : Z) (mode : string)
    (name : jsval) (score : Z) (w : Manager.Browser) (l : list ScoreEntry) :
  unavailable net ->
  Manager.getScores (Manager.this w) mode = Scores l ->
  exists (kept : list ScoreEntry) (w' : Manager.Browser),
    Manager.addScore net now mode name score w = (Return tt, w') /\
    Manager.getScores (Manager.this w') mode = Scores kept /\
    length kept = Nat.min 10 (S (length l)) /\
    (forall x, x ∈ kept -> x = new_entry name score now \/ x ∈ l) /\
    (length l < 10 -> kept ≡ₚ new_entry name score now :: l).
Proof.
  intros Hnet Hl.
  destruct (addScore_fallback_run net now mode name score w l Hnet Hl) as (trace & Hrun).
  eexists. eexists. split; [exact Hrun|]. simpl.
  split; [apply getScores_with_scores|].
  apply push_sort_truncate_content.
Qed.

Lemma addScore_fallback_content_witness :
  exists (kept : list ScoreEntry) (w' : Manager.Browser),
    Manager.addScore Manager.Rejected 11 "easy" (VStr "K") 45 (fresh ∅) = (Return tt, w') /\
    Manager.getScores (Manager.this w') "easy" = Scores kept /\
    length kept = Nat.min 10 (S (length (@nil ScoreEntry))) /\
    (forall x, x ∈ kept -> x = new_entry (VStr "K") 45 11 \/ x ∈ @nil ScoreEntry) /\
    (length (@nil ScoreEntry) < 10 -> kept ≡ₚ new_entry (VStr "K") 45 11 :: []).
Proof.
  apply (addScore_fallback_content Manager.Rejected 11 "easy" (VStr "K") 45 (fresh ∅) []);
    reflexivity.
Defined.

(** X2. In the same situation the cache entry of the mode holds exactly
    the array the Manager now holds, every other cache entry is as
    before, and so is the list of the other mode. *)
Theorem addScore_fallback_mirrors (net : Manager.fetched) (now : Z) (mode : string)
    (name : jsval) (score : Z) (w : Manager.Browser) (l : list ScoreEntry) :
  unavailable net ->
  Manager.getScores (Manager.this w) mode = Scores l ->
  let w' := snd (Manager.addScore net now mode name score w) in
  Manager.localStorage w' !! ("leaderboard_" +:+ mode) =
    Some (Stringified (Manager.getScores (Manager.this w') mode)) /\
  (forall key, key <> "leaderboard_" +:+ mode ->
     Manager.localStorage w' !! key = Manager.localStorage w !! key) /\
  (forall other, ~ same_list other mode ->
     Manager.getScores (Manager.this w') other = Manager.getScores (Manager.this w) other).
Proof.
  intros Hnet Hl w'.
  destruct (addScore_fallback_run net now mode name score w l Hnet Hl) as (trace & Hrun).
  unfold w'. rewrite Hrun. simpl. split; [|split].
  - rewrite getScores_with_scores. apply lookup_insert_eq.
  - intros key Hkey. apply lookup_insert_ne. congruence.
  - intros other Hother. apply getScores_with_scores_other. exact Hother.
Qed.

Lemma addScore_fallback_mirrors_witness :
  let w' := snd (Manager.addScore Manager.Rejected 11 "hard" (VStr "K") 45 (fresh ∅)) in
  Manager.localStorage w' !! "leaderboard_hard" =
    Some (Stringified (Manager.getScores (Manager.this w') "hard")) /\
  Manager.localStorage w' !! "leaderboard_easy" = None /\
  Manager.getScores (Manager.this w') "easy" = Scores [].
Proof.
  destruct (addScore_fallback_mirrors Manager.Rejected 11 "hard" (VStr "K") 45 (fresh ∅) [])
    as (Hmirror & Hkeys & Hother); [reflexivity | reflexivity |].
  split; [exact Hmirror|]. split.
  - rewrite Hkeys by discriminate. reflexivity.
  - rewrite Hother by discriminate. reflexivity.
Defined.

(** ** isHighScore and addScore together *)

Lemma full_board_ranked : RankedList full_board.
Proof.
  split; [simpl; lia|].
  replace full_board with (sort compareScores full_board) by reflexivity.
  apply sort_compareScores_sorted.
Qed.

(** [isHighScore] on an array, step by step. *)
Lemma isHighScore_run (mode : string) (score : Z) (w : Manager.Browser)
    (l : list ScoreEntry) :
  Manager.getScores (Manager.this w) mode = Scores l ->
  Manager.isHighScore mode score w =
  (Return ((length l <? 10)
           || (match last l with Some e => e_score e | None => 0%Z end <? score)%Z),
   {| Manager.this := Manager.this w;
      Manager.localStorage := Manager.localStorage w;
      Manager.effects :=
        Manager.effects w
        ++ [Manager.Console "log" ("High score check for " +:+ mode +:+ " mode:")] |}).
Proof.
  intros Hl. run_manager. rewrite Hl.
  destruct l as [|x l']; [reflexivity|]. reflexivity.
Qed.

(** X3. A score that [isHighScore] accepts makes the board: when the
    Manager holds an array of at most ten entries for the mode and
    [isHighScore] answers true, the entry that the fallback of
    [addScore] then pushes is in the array held afterwards. *)
Theorem high_score_is_kept (net : Manager.fetched) (now : Z) (mode : string)
    (name : jsval) (score : Z) (w : Manager.Browser) (l : list ScoreEntry) :
  unavailable net ->
  Manager.getScores (Manager.this w) mode = Scores l ->
  length l <= 10 ->
  fst (Manager.isHighScore mode score w) = Return true ->
  exists kept,
    Manager.getScores
      (Manager.this (snd (Manager.addScore net now mode name score
                            (snd (Manager.isHighScore mode score w))))) mode
    = Scores kept /\
    new_entry name score now ∈ kept.
Proof.
  intros Hnet Hl Hlen Hhigh.
  rewrite (isHighScore_run mode score w l Hl) in *. simpl in Hhigh.
  injection Hhigh as Hhigh.
  rewrite addScore_fallback_this by exact Hnet. simpl. rewrite Hl.
  rewrite getScores_with_scores. eexists. split; [reflexivity|].
  apply new_entry_is_kept; [exact Hlen|].
  apply orb_true_iff in Hhigh as [Hroom|Hlow].
  - left. now apply Nat.ltb_lt in Hroom.
  - destruct (decide (length l < 10)) as [?|Hfull]; [now left|right].
    destruct (last_is_Some l) as [z Hz]; [lia|].
    rewrite Hz in Hlow. apply Z.ltb_lt in Hlow.
    exists z. split; [now apply last_Some_elem_of|].
    unfold ranks_before, new_entry. simpl. lia.
Qed.

Lemma high_score_is_kept_witness :
  exists kept,
    Manager.getScores
      (Manager.this (snd (Manager.addScore Manager.Rejected 11 "easy" (VStr "K") 45
                            (snd (Manager.isHighScore "easy" 45 (fresh ∅)))))) "easy"
    = Scores kept /\
    new_entry (VStr "K") 45 11 ∈ kept.
Proof.
  apply (high_score_is_kept Manager.Rejected 11 "easy" (VStr "K") 45 (fresh ∅) []).
  - reflexivity.
  - reflexivity.
  - simpl. lia.
  - reflexivity.
Defined.

(** X4. On a ranked board of ten, a submission that the last entry
    ranks before (a lower score, or the same score with a date that is
    not more recent) changes nothing: after the fallback of [addScore]
    the Manager holds the same array and the cache entry holds it too. *)
Theorem outranked_submission_changes_nothing (net : Manager.fetched) (now : Z)
    (mode : string) (name : jsval) (score : Z) (w : Manager.Browser)
    (l : list ScoreEntry) (z : ScoreEntry) :
  unavailable net ->
  Manager.getScores (Manager.this w) mode = Scores l ->
  RankedList l -> length l = 10 -> last l = Some z ->
  ranks_before z (new_entry name score now) ->
  let w' := snd (Manager.addScore net now mode name score w) in
  Manager.this w' = Manager.this w /\
  Manager.localStorage w' !! ("leaderboard_" +:+ mode) = Some (Stringified (Scores l)).
Proof.
  intros Hnet Hl Hranked Hten Hlast Hrank w'.
  destruct (addScore_fallback_run net now mode name score w l Hnet Hl) as (trace & Hrun).
  unfold w'. rewrite Hrun. simpl.
  rewrite (outranked_entry_is_dropped _ z l Hranked Hten Hlast Hrank).
  split; [|apply lookup_insert_eq].
  unfold with_scores, Manager.getScores in *.
  destruct (Manager.this w) as [easy hard]; simpl in *.
  destruct (String.eqb mode "easy"); now subst.
Qed.

Lemma outranked_submission_changes_nothing_witness :
  let w := {| Manager.this := {| Manager.easyModeScores := Scores full_board;
                                 Manager.hardModeScores := Scores [] |};
              Manager.localStorage := ∅; Manager.effects := [] |} in
  Manager.this (snd (Manager.addScore Manager.Rejected 11 "easy" (VStr "K") 4 w)) =
  Manager.this w.
Proof.
  intros w.
  apply (outranked_submission_changes_nothing Manager.Rejected 11 "easy" (VStr "K") 4 w
           full_board (entry "J" 5 1)).
  - reflexivity.
  - reflexivity.
  - exact full_board_ranked.
  - reflexivity.
  - reflexivity.
  - unfold ranks_before. simpl. lia.
Defined.

(** X5. The tie that the two operations judge differently: on a board
    of ten, a submission with the score of the last entry and a more
    recent date is turned down by [isHighScore], yet the fallback of
    [addScore] keeps its entry. *)
Theorem recent_tie_is_kept_though_not_high (net : Manager.fetched) (now : Z)
    (mode : string) (name : jsval) (w : Manager.Browser)
    (l : list ScoreEntry) (z : ScoreEntry) :
  unavailable net ->
  Manager.getScores (Manager.this w) mode = Scores l ->
  length l = 10 -> last l = Some z -> (e_date z < now)%Z ->
  fst (Manager.isHighScore mode (e_score z) w) = Return false /\
  exists kept,
    Manager.getScores
      (Manager.this (snd (Manager.addScore net now mode name (e_score z) w))) mode
    = Scores kept /\
    new_entry name (e_score z) now ∈ kept.
Proof.
  intros Hnet Hl Hten Hlast Hdate. split.
  - rewrite (isHighScore_run mode (e_score z) w l Hl). simpl.
    rewrite Hlast, Hten. simpl. now rewrite Z.ltb_irrefl.
  - rewrite addScore_fallback_this by exact Hnet. rewrite Hl.
    rewrite getScores_with_scores. eexists. split; [reflexivity|].
    apply new_entry_is_kept; [lia|]. right.
    exists z. split; [now apply last_Some_elem_of|].
    unfold ranks_before, new_entry. simpl. lia.
Qed.

Lemma recent_tie_is_kept_though_not_high_witness :
  let w := {| Manager.this := {| Manager.easyModeScores := Scores full_board;
                                 Manager.hardModeScores := Scores [] |};
              Manager.localStorage := ∅; Manager.effects := [] |} in
  fst (Manager.isHighScore "easy" 5 w) = Return false /\
  exists kept,
    Manager.getScores
      (Manager.this (snd (Manager.addScore Manager.Rejected 11 "easy" (VStr "K") 5 w)))
      "easy" = Scores kept /\
    new_entry (VStr "K") 5 11 ∈ kept.
Proof.
  intros w.
  apply (recent_tie_is_kept_though_not_high Manager.Rejected 11 "easy" (VStr "K") w
           full_board (entry "J" 5 1)).
  - reflexivity.
  - reflexivity.
  - reflexivity.
  - reflexivity.
  - simpl. lia.
Defined.

(** ** The other paths of addScore *)

(** X6. When the remote service is unavailable and the value held for
    the mode is not an array, [addScore] throws [TypeError]; the
    Manager's fields and the cache are as before. *)
Theorem addScore_fallback_without_array (net : Manager.fetched) (now : Z)
    (mode : string) (name : jsval) (score : Z) (w : Manager.Browser) :
  unavailable net ->
  (forall l, Manager.getScores (Manager.this w) mode <> Scores l) ->
  exists w',
    Manager.addScore net now mode name score w = (Throw TypeError, w') /\
    Manager.this w' = Manager.this w /\
    Manager.localStorage w' = Manager.localStorage w.
Proof.
  unfold unavailable. intros Hnet Hheld. run_manager.
  destruct net as [|status body]; simpl in *; rewrite ?Hnet; simpl;
    destruct (Manager.getScores (Manager.this w) mode) as [l| |msg] eqn:E;
    try (now destruct (Hheld l));
    eexists; (split; [reflexivity|]); split; reflexivity.
Qed.

Lemma addScore_fallback_without_array_witness :
  let w := {| Manager.this := {| Manager.easyModeScores := Success;
                                 Manager.hardModeScores := Scores [] |};
              Manager.localStorage := ∅; Manager.effects := [] |} in
  exists w',
    Manager.addScore Manager.Rejected 11 "easy" (VStr "K") 45 w = (Throw TypeError, w') /\
    Manager.this w' = Manager.this w /\
    Manager.localStorage w' = Manager.localStorage w.
Proof.
  intros w.
  apply (addScore_fallback_without_array Manager.Rejected 11 "easy" (VStr "K") 45 w).
  - reflexivity.
  - intros l. discriminate.
Defined.

(** X7. A response with a success status whose body does not parse is
    handled as a rejected request: [addScore] warns, falls back to the
    local ranking, and ends in the same state. *)
Theorem addScore_unparseable_body_falls_back (status : Z) (garbage : string) (now : Z)
    (mode : string) (name : jsval) (score : Z) (w : Manager.Browser) :
  (200 <= status <= 299)%Z ->
  Manager.addScore (Manager.Response status (Malformed garbage)) now mode name score w =
  Manager.addScore Manager.Rejected now mode name score w.
Proof.
  intros Hstatus. run_manager.
  assert ((200 <=? status)%Z && (status <=? 299)%Z = true) as ->
    by (apply andb_true_iff; split; apply Z.leb_le; lia).
  reflexivity.
Qed.

Lemma addScore_unparseable_body_falls_back_witness :
  Manager.addScore (Manager.Response 200 (Malformed "<html>")) 11 "easy" (VStr "K") 45
    (fresh ∅) =
  Manager.addScore Manager.Rejected 11 "easy" (VStr "K") 45 (fresh ∅).
Proof.
  apply (addScore_unparseable_body_falls_back 200 "<html>" 11 "easy" (VStr "K") 45 (fresh ∅)).
  lia.
Defined.

(** ** Loading *)

(** A load that the remote service answers, step by step. *)
Lemma loadScores_online_run (status : Z) (d : json) (mode : string)
    (w : Manager.Browser) :
  (200 <= status <= 299)%Z ->
  Manager.loadScores (Manager.Response status (Stringified d)) mode w =
  (Return tt,
   {| Manager.this := with_scores mode d (Manager.this w);
      Manager.localStorage :=
        <["leaderboard_" +:+ mode := Stringified d]> (Manager.localStorage w);
      Manager.effects :=
        Manager.effects w
        ++ [Manager.Fetch (Manager.scores_url +:+ "?mode=" +:+ mode) "GET" None;
            Manager.SetItem ("leaderboard_" +:+ mode) (Stringified d)] |}).
Proof.
  intros Hstatus. run_manager.
  assert ((200 <=? status)%Z && (status <=? 299)%Z = true) as ->
    by (apply andb_true_iff; split; apply Z.leb_le; lia).
  simpl. unfold with_scores, JSON_stringify.
  destruct (String.eqb mode "easy"); simpl; rewrite <- app_assoc; reflexivity.
Qed.

(** X8. When a response with a success status carries a document,
    [loadScores] holds that document for the mode and writes it to the
    cache entry of the mode; the list of the other mode is not touched. *)
Theorem loadScores_adopts_response (status : Z) (d : json) (mode : string)
    (w : Manager.Browser) :
  (200 <= status <= 299)%Z ->
  exists w',
    Manager.loadScores (Manager.Response status (Stringified d)) mode w = (Return tt, w') /\
    Manager.this w' = with_scores mode d (Manager.this w) /\
    Manager.localStorage w' =
      <["leaderboard_" +:+ mode := Stringified d]> (Manager.localStorage w).
Proof.
  intros Hstatus. eexists. split; [now apply loadScores_online_run|].
  split; reflexivity.
Qed.

Lemma loadScores_adopts_response_witness :
  exists w',
    Manager.loadScores (Manager.Response 200 (Stringified (Scores [entry "A" 50 10])))
      "hard" (fresh ∅) = (Return tt, w') /\
    Manager.this w' = with_scores "hard" (Scores [entry "A" 50 10]) (Manager.this (fresh ∅)) /\
    Manager.localStorage w' =
      <["leaderboard_" +:+ "hard" := Stringified (Scores [entry "A" 50 10])]>
        (Manager.localStorage (fresh ∅)).
Proof.
  apply (loadScores_adopts_response 200 (Scores [entry "A" 50 10]) "hard" (fresh ∅)). lia.
Defined.

(** An offline load, step by step: the field of the mode takes what the
    cache gives, unless the entry does not parse, and the cache is only
    read. *)
Lemma loadScores_offline (net : Manager.fetched) (mode : string) (w : Manager.Browser) :
  unavailable net ->
  Manager.this (snd (Manager.loadScores net mode w)) =
    match Manager.localStorage w !! ("leaderboard_" +:+ mode) with
    | Some (Malformed s) =>
        if String.eqb s "" then with_scores mode (Scores []) (Manager.this w)
        else Manager.this w
    | _ => with_scores mode (cached (Manager.localStorage w) mode) (Manager.this w)
    end /\
  Manager.localStorage (snd (Manager.loadScores net mode w)) = Manager.localStorage w.
Proof.
  unfold unavailable. intros Hnet. run_manager. unfold cached, with_scores.
  destruct net as [|status body]; simpl in *; rewrite ?Hnet; simpl;
    destruct (Manager.localStorage w !! ("leaderboard_" +:+ mode)) as [[d|s]|]; simpl;
    try destruct (String.eqb s ""); simpl;
    destruct (String.eqb mode "easy"); split; reflexivity.
Qed.

(** The fields of a Manager constructed offline. *)
Lemma constructor_offline_fields (net_easy net_hard : Manager.fetched)
    (storage : gmap string text) :
  unavailable net_easy -> unavailable net_hard ->
  Manager.this (Manager.constructor net_easy net_hard storage) =
    {| Manager.easyModeScores := cached storage "easy";
       Manager.hardModeScores := cached storage "hard" |}.
Proof.
  intros He Hh. unfold Manager.constructor.
  destruct (loadScores_offline net_easy "easy" (fresh storage) He) as [T1 S1].
  unfold fresh in T1, S1.
  set (w1 := snd (Manager.loadScores net_easy "easy" _)) in *.
  destruct (loadScores_offline net_hard "hard" w1 Hh) as [T2 S2].
  rewrite T2, S1, T1. unfold cached, with_scores. simpl.
  destruct (storage !! ("leaderboard_" +:+ "easy")) as [[d|s]|];
    destruct (storage !! ("leaderboard_" +:+ "hard")) as [[d'|s']|]; simpl;
    try destruct (String.eqb s ""); try destruct (String.eqb s' ""); reflexivity.
Qed.

(** X9. A Manager constructed while the remote service is unavailable
    holds, for each of the two modes, the document of the cache entry of
    that mode, and the empty array when the entry is absent, empty or
    does not parse; construction leaves the cache as it was. *)
Theorem constructor_offline (net_easy net_hard : Manager.fetched)
    (storage : gmap string text) :
  unavailable net_easy -> unavailable net_hard ->
  Manager.this (Manager.constructor net_easy net_hard storage) =
    {| Manager.easyModeScores := cached storage "easy";
       Manager.hardModeScores := cached storage "hard" |} /\
  Manager.localStorage (Manager.constructor net_easy net_hard storage) = storage.
Proof.
  intros He Hh. split; [now apply constructor_offline_fields|].
  unfold Manager.constructor.
  destruct (loadScores_offline net_easy "easy" (fresh storage) He) as [_ S1].
  unfold fresh in S1.
  set (w1 := snd (Manager.loadScores net_easy "easy" _)) in *.
  destruct (loadScores_offline net_hard "hard" w1 Hh) as [_ S2].
  now rewrite S2, S1.
Qed.

Lemma constructor_offline_witness :
  Manager.this (Manager.constructor Manager.Rejected Manager.Rejected
                  {["leaderboard_hard" := Stringified (Scores [entry "A" 50 10])]}) =
  {| Manager.easyModeScores := Scores [];
     Manager.hardModeScores := Scores [entry "A" 50 10] |}.
Proof.
  destruct (constructor_offline Manager.Rejected Manager.Rejected
              {["leaderboard_hard" := Stringified (Scores [entry "A" 50 10])]})
    as [Hthis _]; [reflexivity | reflexivity |].
  rewrite Hthis. reflexivity.
Defined.

(** ** Restarting offline *)

Lemma cache_key_inj (mode mode' : string) :
  mode <> mode' -> "leaderboard_" +:+ mode <> "leaderboard_" +:+ mode'.
Proof. intros Hne Heq. apply Hne. exact (String.app_inj _ _ _ Heq). Qed.

(** X10. What the fallback of [addScore] and [clearScores] leave for
    'easy' or 'hard' survives a restart without network: a Manager
    constructed offline on the resulting cache holds for that mode the
    array the old Manager held. *)
Theorem offline_restart_restores (net net_easy net_hard : Manager.fetched) (now : Z)
    (mode : string) (name : jsval) (score : Z) (w : Manager.Browser)
    (l : list ScoreEntry) :
  mode = "easy" \/ mode = "hard" ->
  unavailable net_easy -> unavailable net_hard ->
  (unavailable net ->
   Manager.getScores (Manager.this w) mode = Scores l ->
   let w' := snd (Manager.addScore net now mode name score w) in
   Manager.getScores
     (Manager.this (Manager.constructor net_easy net_hard (Manager.localStorage w'))) mode
   = Manager.getScores (Manager.this w') mode) /\
  (let w' := snd (Manager.clearScores net mode w) in
   Manager.getScores
     (Manager.this (Manager.constructor net_easy net_hard (Manager.localStorage w'))) mode
   = Scores []).
Proof.
  intros Hmode He Hh. split.
  - intros Hnet Hl w'.
    rewrite (constructor_offline_fields net_easy net_hard (Manager.localStorage w') He Hh).
    destruct (addScore_fallback_run net now mode name score w l Hnet Hl) as (trace & Hrun).
    unfold w'. rewrite Hrun. simpl. rewrite getScores_with_scores.
    unfold Manager.getScores, cached. simpl.
    destruct Hmode as [-> | ->]; simpl; now rewrite lookup_insert_eq.
  - intros w'.
    rewrite (constructor_offline_fields net_easy net_hard (Manager.localStorage w') He Hh).
    assert (Manager.localStorage w' =
            <["leaderboard_" +:+ mode := Stringified (Scores [])]> (Manager.localStorage w))
      as -> by (unfold w'; run_manager; now destruct (String.eqb mode "easy"), net).
    unfold Manager.getScores, cached. simpl.
    destruct Hmode as [-> | ->]; simpl; now rewrite lookup_insert_eq.
Qed.

Lemma offline_restart_restores_witness :
  let w' := snd (Manager.addScore Manager.Rejected 11 "hard" (VStr "K") 45 (fresh ∅)) in
  Manager.getScores
    (Manager.this (Manager.constructor Manager.Rejected Manager.Rejected
                     (Manager.localStorage w'))) "hard"
  = Manager.getScores (Manager.this w') "hard".
Proof.
  destruct (offline_restart_restores Manager.Rejected Manager.Rejected Manager.Rejected
              11 "hard" (VStr "K") 45 (fresh ∅) []) as [Hadd _].
  - right. reflexivity.
  - reflexivity.
  - reflexivity.
  - apply Hadd; reflexivity.
Defined.

(** X11. A submission under a mode that is neither 'easy' nor 'hard'
    does not survive a restart: the fallback of [addScore] pushes it to
    the hard list in memory but writes the cache entry named after the
    mode given, so a Manager constructed offline afterwards holds what
    one constructed before the call would hold. *)
Theorem unknown_mode_submission_is_forgotten (net net_easy net_hard : Manager.fetched)
    (now : Z) (mode : string) (name : jsval) (score : Z) (w : Manager.Browser)
    (l : list ScoreEntry) :
  mode <> "easy" -> mode <> "hard" ->
  unavailable net -> unavailable net_easy -> unavailable net_hard ->
  Manager.hardModeScores (Manager.this w) = Scores l ->
  let w' := snd (Manager.addScore net now mode name score w) in
  (exists kept, Manager.hardModeScores (Manager.this w') = Scores kept /\
                length kept = Nat.min 10 (S (length l))) /\
  Manager.this (Manager.constructor net_easy net_hard (Manager.localStorage w')) =
  Manager.this (Manager.constructor net_easy net_hard (Manager.localStorage w)).
Proof.
  intros Hne Hnh Hnet He Hh Hl w'.
  assert (Manager.getScores (Manager.this w) mode = Scores l) as Hget
    by (unfold Manager.getScores; now rewrite (eqb_easy_false mode Hne)).
  destruct (addScore_fallback_run net now mode name score w l Hnet Hget) as (trace & Hrun).
  unfold w'. rewrite Hrun. simpl. split.
  - unfold with_scores. rewrite (eqb_easy_false mode Hne). simpl.
    eexists. split; [reflexivity|]. apply push_sort_truncate_content.
  - rewrite !constructor_offline_fields by assumption.
    unfold cached.
    rewrite !lookup_insert_ne by (apply cache_key_inj; assumption). reflexivity.
Qed.

Lemma unknown_mode_submission_is_forgotten_witness :
  let w' := snd (Manager.addScore Manager.Rejected 11 "medium" (VStr "K") 45 (fresh ∅)) in
  Manager.this (Manager.constructor Manager.Rejected Manager.Rejected
                  (Manager.localStorage w')) =
  Manager.this (Manager.constructor Manager.Rejected Manager.Rejected
                  (Manager.localStorage (fresh ∅))).
Proof.
  apply (unknown_mode_submission_is_forgotten Manager.Rejected Manager.Rejected
           Manager.Rejected 11 "medium" (VStr "K") 45 (fresh ∅) []);
    try discriminate; reflexivity.
Defined.

(** * Further properties of the spreadsheet-backed service *)


(** X13. While the Sheets API is down no request is answered with 200
    and the sheet stays as it is. *)
Theorem api_down_never_succeeds (now : Z) (event : Sheets.event) (sheet : list Row) :
  exists r : reply,
    Sheets.handler false now event sheet = (Return r, sheet) /\
    statusCode r <> 200%Z.
Proof.
  unfold Sheets.handler.
  destruct (String.eqb (Sheets.httpMethod event) "POST").
  - unfold values_append, try_catch, bind, ret, throw.
    destruct (Sheets.event_payload event) as [|p]; simpl.
    + eexists. split; [reflexivity|]. discriminate.
    + destruct (truthy (p_mode p)), (p_score p); simpl;
        eexists; (split; [reflexivity|]); discriminate.
  - destruct (String.eqb (Sheets.httpMethod event) "GET");
      unfold values_get, try_catch, bind, ret; simpl;
      eexists; (split; [reflexivity|]); discriminate.
Qed.

(** X14. The Express server answers as the function does: the same
    reply and the same sheet for every POST payload and for every GET
    query. *)
Theorem express_agrees_with_function (api_up : bool) (now : Z) (p : payload)
    (query : gmap string string) (sheet : list Row) :
  Express.post_scores api_up now p sheet = Sheets.handler api_up now (post_event p) sheet /\
  Express.get_scores api_up query sheet =
    Sheets.handler api_up now (get_event (Some query)) sheet.
Proof. split; reflexivity. Qed.

(** ** What a GET lists *)

Lemma top_rows_unfold (mode : string) (rows : list Row) :
  top_rows mode rows =
  take 10 (sort compareByScore (map entry_of_row (rows_of mode rows))).
Proof. reflexivity. Qed.

(** X15. With the Sheets API up, a GET is answered with 200 and a list
    in descending order of score whose length is the number of rows
    stored under the requested mode, capped at ten. Every listed entry
    is a row of the sheet that carries that mode, and when at most ten
    rows do, every one of them is listed. The sheet is not written. *)
Theorem get_lists_top_rows (now : Z) (event : Sheets.event) (sheet : list Row) :
  Sheets.httpMethod event = "GET" ->
  let mode := Sheets.requested_mode event in
  exists listed : list ScoreEntry,
    Sheets.handler true now event sheet =
      (Return {| statusCode := 200; body := Stringified (Scores listed) |}, sheet) /\
    length listed = Nat.min 10 (length (rows_of mode sheet)) /\
    StronglySorted (fun a b => (e_score b <= e_score a)%Z) listed /\
    (forall e, e ∈ listed ->
       exists row, row ∈ sheet /\ r_mode row = VStr mode /\ e = entry_of_row row) /\
    (length (rows_of mode sheet) <= 10 ->
       listed ≡ₚ map entry_of_row (rows_of mode sheet)).
Proof.
  intros Hget mode. exists (top_rows mode sheet). split; [|split; [|split; [|split]]].
  - unfold Sheets.handler. rewrite Hget. reflexivity.
  - rewrite top_rows_unfold, length_take, sort_length, length_map. lia.
  - apply top_rows_sorted.
  - intros e He. rewrite top_rows_unfold in He.
    apply elem_of_take in He as (i & Hi & _). apply list_elem_of_lookup_2 in Hi.
    rewrite sort_Permutation in Hi.
    apply list_elem_of_fmap in Hi as (row & -> & Hrow).
    apply list_elem_of_filter in Hrow as [Hmode Hrow].
    exists row. split; [exact Hrow|]. split; [|reflexivity].
    now apply strict_eq_str_true.
  - intros Hlen. rewrite top_rows_unfold.
    rewrite take_ge by (rewrite sort_length, length_map; exact Hlen).
    apply sort_Permutation.
Qed.

Lemma get_lists_top_rows_witness :
  let sheet := [{| r_mode := VStr "hard"; r_name := VStr "A"; r_score := 5; r_date := 1000 |};
                {| r_mode := VStr "easy"; r_name := VStr "B"; r_score := 7; r_date := 2000 |}] in
  exists listed : list ScoreEntry,
    Sheets.handler true 3000 (get_event None) sheet =
      (Return {| statusCode := 200; body := Stringified (Scores listed) |}, sheet) /\
    length listed = Nat.min 10 (length (rows_of "easy" sheet)).
Proof.
  intros sheet.
  destruct (get_lists_top_rows 3000 (get_event None) sheet) as (listed & Hrun & Hlen & _).
  - reflexivity.
  - exists listed. split; [exact Hrun | exact Hlen].
Defined.

Lemma equal_scores_sorted (z : Z) (l : list ScoreEntry) :
  Forall (fun e => e_score e = z) l ->
  StronglySorted (fun a b => (compareByScore a b <= 0)%Z) l.
Proof.
  induction 1 as [|x l Hx Hl IH]; constructor; [exact IH|].
  eapply Forall_impl; [exact Hl|]. intros y Hy. unfold compareByScore. simpl in *. lia.
Qed.

(** X16. Rows of equal score are listed oldest first: when every row
    stored under the requested mode has the same score, a GET lists the
    first ten of them in the order they were appended, so an eleventh
    submission with that score never shows. *)
Theorem equal_scores_listed_in_append_order (now : Z) (event : Sheets.event)
    (sheet : list Row) (z : Z) :
  Sheets.httpMethod event = "GET" ->
  Forall (fun row => r_score row = z) (rows_of (Sheets.requested_mode event) sheet) ->
  Sheets.handler true now event sheet =
    (Return {| statusCode := 200;
               body := Stringified
                         (Scores (take 10 (map entry_of_row
                                             (rows_of (Sheets.requested_mode event) sheet)))) |},
     sheet).
Proof.
  intros Hget Hz. unfold Sheets.handler. rewrite Hget. simpl.
  unfold values_get, try_catch, bind, ret. simpl. rewrite top_rows_unfold.
  rewrite (sort_sorted_id compareByScore); [reflexivity|].
  apply (equal_scores_sorted z). apply Forall_fmap.
  eapply Forall_impl; [exact Hz|]. intros row Hrow. exact Hrow.
Qed.

Lemma equal_scores_listed_in_append_order_witness :
  let sheet := [{| r_mode := VStr "easy"; r_name := VStr "A"; r_score := 5; r_date := 1000 |};
                {| r_mode := VStr "easy"; r_name := VStr "B"; r_score := 5; r_date := 2000 |}] in
  Sheets.handler true 3000 (get_event None) sheet =
    (Return {| statusCode := 200;
               body := Stringified
                         (Scores (take 10 (map entry_of_row
                                    (rows_of (Sheets.requested_mode (get_event None)) sheet)))) |},
     sheet).
Proof.
  intros sheet.
  apply (equal_scores_listed_in_append_order 3000 (get_event None) sheet 5).
  - reflexivity.
  - repeat constructor.
Defined.

Lemma rows_of_app (mode : string) (rows rows' : list Row) :
  rows_of mode (rows ++ rows') = rows_of mode rows ++ rows_of mode rows'.
Proof. unfold rows_of. apply filter_app. Qed.

(** X17. A submission that the function accepts shows in the next
    listing of its mode as long as fewer than ten rows were stored under
    that mode: the POST is answered with 200 and the GET that follows
    lists the new entry. *)
Theorem posted_row_is_listed (now later : Z) (mode : string) (name : jsval) (score : Z)
    (sheet : list Row) :
  mode <> "" ->
  length (rows_of mode sheet) < 10 ->
  exists (sheet' : list Row) (listed : list ScoreEntry),
    Sheets.handler true now (post_event (submission mode name score)) sheet =
      (Return {| statusCode := 200; body := Stringified Success |}, sheet') /\
    Sheets.handler true later (get_event (Some {["mode" := mode]})) sheet' =
      (Return {| statusCode := 200; body := Stringified (Scores listed) |}, sheet') /\
    {| e_mode := Some (VStr mode); e_name := name; e_score := score; e_date := now |}
      ∈ listed.
Proof.
  intros Hmode Hroom. apply String.eqb_neq in Hmode.
  eexists. eexists. split; [|split].
  - run_service. rewrite Hmode. simpl. reflexivity.
  - run_service. unfold Sheets.requested_mode. simpl.
    rewrite lookup_singleton_eq, Hmode. reflexivity.
  - rewrite top_rows_unfold, rows_of_app.
    assert (rows_of mode [{| r_mode := VStr mode; r_name := name;
                             r_score := score; r_date := now |}]
            = [{| r_mode := VStr mode; r_name := name; r_score := score; r_date := now |}])
      as Hnew.
    { unfold rows_of. rewrite filter_cons_True; [reflexivity|].
      simpl. apply String.eqb_refl. }
    rewrite Hnew, take_ge
      by (rewrite sort_length, length_map, length_app; simpl; lia).
    rewrite sort_Permutation, map_app. apply elem_of_app. right.
    apply list_elem_of_singleton. reflexivity.
Qed.

Lemma posted_row_is_listed_witness :
  exists (sheet' : list Row) (listed : list ScoreEntry),
    Sheets.handler true 1000 (post_event (submission "easy" (VStr "A") 5)) [] =
      (Return {| statusCode := 200; body := Stringified Success |}, sheet') /\
    Sheets.handler true 2000 (get_event (Some {["mode" := "easy"]})) sheet' =
      (Return {| statusCode := 200; body := Stringified (Scores listed) |}, sheet') /\
    {| e_mode := Some (VStr "easy"); e_name := VStr "A"; e_score := 5; e_date := 1000 |}
      ∈ listed.
Proof.
  apply (posted_row_is_listed 1000 2000 "easy" (VStr "A") 5 []).
  - discriminate.
  - simpl. lia.
Defined.

(** * Further properties of the blob store *)

(** [saveScores] once [getKVStore] has handed back a store that
    answers, step by step. *)
Lemma saveScores_run (now : Z) (mode : string) (name : jsval) (newScore : Z)
    (w : ScoresDb.Functions) (held : list ScoreEntry) :
  ScoresDb.store w !! ("scores_" +:+ mode) = Some (Stringified (Scores held)) \/
  (ScoresDb.store w !! ("scores_" +:+ mode) = None /\ held = []) ->
  let kept := truncate (sort compareScores (held ++ [new_entry name newScore now])) in
  ScoresDb.saveScores (Return tt) true true now mode name newScore w =
  (Return (Scores kept),
   {| ScoresDb.store := <["scores_" +:+ mode := Stringified (Scores kept)]> (ScoresDb.store w);
      ScoresDb.console_error := ScoresDb.console_error w |}).
Proof.
  intros H kept. run_store. unfold JSON_stringify, kept, new_entry.
  destruct H as [E | [E ->]]; rewrite E; reflexivity.
Qed.

(** What [getKVStore] throws leaves both functions at once, before the
    store is read and before anything is logged. *)
Lemma getKVStore_throw_escapes (e : exn) (get_up set_up : bool) (now : Z)
    (mode : string) (name : jsval) (newScore : Z) (w : ScoresDb.Functions) :
  ScoresDb.getScores (Throw e) get_up mode w = (Throw e, w) /\
  ScoresDb.saveScores (Throw e) get_up set_up now mode name newScore w = (Throw e, w).
Proof. split; reflexivity. Qed.

(** X18. What [saveScores] returns is what the store then holds: after
    a call that returned a list, [getScores] for the same mode in the
    same deployment, with the store readable, returns that list and logs
    nothing. *)
Theorem saveScores_then_getScores (opened : outcome unit) (get_up set_up : bool)
    (now : Z) (mode : string) (name : jsval) (newScore : Z)
    (w w' : ScoresDb.Functions) (saved : json) :
  ScoresDb.saveScores opened get_up set_up now mode name newScore w = (Return saved, w') ->
  ScoresDb.getScores opened true mode w' = (Return saved, w').
Proof.
  destruct opened as [[]|e]; [|intros H; discriminate H].
  run_store. destruct get_up; simpl.
  - destruct (ScoresDb.store w !! ("scores_" +:+ mode)) as [[[l| |msg]|s]|]; simpl;
      try destruct (String.eqb s ""); simpl;
      destruct set_up; simpl; intros [= <- <-]; simpl; now rewrite lookup_insert_eq.
  - destruct set_up; simpl; intros [= <- <-]; simpl; now rewrite lookup_insert_eq.
Qed.

Lemma saveScores_then_getScores_witness :
  exists saved w',
    ScoresDb.saveScores (Return tt) true true 1000 "easy" (VStr "A") 5 (functions ∅)
    = (Return saved, w') /\
    ScoresDb.getScores (Return tt) true "easy" w' = (Return saved, w').
Proof.
  eexists. eexists. split; [reflexivity|].
  apply (saveScores_then_getScores (Return tt) true true 1000 "easy" (VStr "A") 5
           (functions ∅)).
  reflexivity.
Defined.

(** X19. A read that fails costs the stored list: once [getKVStore]
    has handed back the store, when the store cannot be read, or the
    stored string does not parse, while the write goes through,
    [saveScores] returns the new entry alone and stores it in place of
    whatever the mode had. *)
Theorem saveScores_after_failed_read (get_up : bool) (now : Z) (mode : string)
    (name : jsval) (newScore : Z) (w : ScoresDb.Functions) :
  get_up = false \/
  (exists s, ScoresDb.store w !! ("scores_" +:+ mode) = Some (Malformed s)) ->
  exists w',
    ScoresDb.saveScores (Return tt) get_up true now mode name newScore w =
      (Return (Scores [new_entry name newScore now]), w') /\
    ScoresDb.store w' !! ("scores_" +:+ mode) =
      Some (Stringified (Scores [new_entry name newScore now])).
Proof.
  intros H. run_store. unfold new_entry, JSON_stringify.
  destruct get_up; simpl.
  - destruct H as [H | [s Hs]]; [discriminate|]. rewrite Hs. simpl.
    destruct (String.eqb s ""); simpl; eexists; (split; [reflexivity|]);
      simpl; apply lookup_insert_eq.
  - eexists. split; [reflexivity|]. simpl. apply lookup_insert_eq.
Qed.

Lemma saveScores_after_failed_read_witness :
  let w := functions {["scores_easy" := Stringified (Scores full_board)]} in
  exists w',
    ScoresDb.saveScores (Return tt) false true 11 "easy" (VStr "K") 4 w =
      (Return (Scores [new_entry (VStr "K") 4 11]), w') /\
    ScoresDb.store w' !! ("scores_" +:+ "easy") =
      Some (Stringified (Scores [new_entry (VStr "K") 4 11])).
Proof.
  intros w. apply (saveScores_after_failed_read false 11 "easy" (VStr "K") 4 w).
  left. reflexivity.
Defined.

(** X20. A [saveScores] that throws has written nothing. When it is
    [getKVStore] that throws, its exception is the one thrown and
    nothing is read or logged; otherwise the last line logged is the
    save error. Once [getKVStore] has handed back the store,
    [saveScores] throws whenever the write fails, and also when the
    stored value is a document other than an array. *)
Theorem saveScores_failure_keeps_store (opened : outcome unit) (get_up set_up : bool)
    (now : Z) (mode : string) (name : jsval) (newScore : Z) (w : ScoresDb.Functions) :
  (forall e w',
     ScoresDb.saveScores opened get_up set_up now mode name newScore w = (Throw e, w') ->
     ScoresDb.store w' = ScoresDb.store w /\
     (opened = Return tt ->
      last (ScoresDb.console_error w') = Some "Error saving scores:") /\
     (forall e', opened = Throw e' -> e = e' /\ w' = w)) /\
  (opened = Return tt -> set_up = false ->
   exists e w',
     ScoresDb.saveScores opened get_up set_up now mode name newScore w = (Throw e, w')) /\
  (opened = Return tt -> get_up = true ->
   (forall l, ScoresDb.store w !! ("scores_" +:+ mode) <> Some (Stringified (Scores l))) ->
   (exists d, ScoresDb.store w !! ("scores_" +:+ mode) = Some (Stringified d)) ->
   exists w', ScoresDb.saveScores opened get_up set_up now mode name newScore w
              = (Throw TypeError, w')).
Proof.
  split; [|split].
  - intros e w'. destruct opened as [[]|e0].
    + run_store. destruct get_up; simpl.
      * destruct (ScoresDb.store w !! ("scores_" +:+ mode)) as [[[l| |msg]|s]|]; simpl;
          try destruct (String.eqb s ""); simpl;
          destruct set_up; simpl; intros [= <- <-]; simpl;
          (split; [reflexivity|]); (split; [intros _; apply last_snoc|]);
          intros e' He'; discriminate He'.
      * destruct set_up; simpl; intros [= <- <-]; simpl.
        split; [reflexivity|]. split; [intros _; apply last_snoc|].
        intros e' He'; discriminate He'.
    + intros [= <- <-]. split; [reflexivity|]. split; [intros H; discriminate H|].
      intros e' [= <-]. split; reflexivity.
  - intros -> ->. run_store. destruct get_up; simpl.
    + destruct (ScoresDb.store w !! ("scores_" +:+ mode)) as [[[l| |msg]|s]|]; simpl;
        try destruct (String.eqb s ""); simpl; eexists; eexists; reflexivity.
    + eexists. eexists. reflexivity.
  - intros -> -> Hnot [d Hd]. run_store. rewrite Hd. simpl.
    destruct d as [l| |msg]; [now destruct (Hnot l) | |]; simpl; eexists; reflexivity.
Qed.

Lemma saveScores_failure_keeps_store_witness :
  let w := functions {["scores_easy" := Stringified (Scores full_board)]} in
  exists e w',
    ScoresDb.saveScores (Return tt) true false 11 "easy" (VStr "K") 45 w = (Throw e, w') /\
    ScoresDb.store w' = ScoresDb.store w /\
    last (ScoresDb.console_error w') = Some "Error saving scores:".
Proof.
  intros w.
  destruct (saveScores_failure_keeps_store (Return tt) true false 11 "easy" (VStr "K") 45 w)
    as (Hkeep & Hfail & _).
  destruct (Hfail eq_refl eq_refl) as (e & w' & Hrun).
  destruct (Hkeep e w' Hrun) as (Hstore & Hlog & _).
  exists e, w'. split; [exact Hrun|]. split; [exact Hstore | exact (Hlog eq_refl)].
Defined.

Lemma saveScores_returns_ranked_witness :
  exists kept w',
    ScoresDb.saveScores (Return tt) true true 11 "easy" (VStr "K") 45
      (functions {["scores_easy" := Stringified (Scores full_board)]})
    = (Return (Scores kept), w') /\
    kept = truncate (sort compareScores (full_board ++ [new_entry (VStr "K") 45 11])) /\
    RankedList kept /\
    ScoresDb.store w' !! ("scores_" +:+ "easy") = Some (Stringified (Scores kept)).
Proof.
  apply (saveScores_returns_ranked 11 "easy" (VStr "K") 45
           (functions {["scores_easy" := Stringified (Scores full_board)]}) full_board).
  left. reflexivity.
Defined.

(** X22. The Manager's fallback ranks as the blob store does: when the
    Manager holds for a mode the array that the store holds for it, and
    [getKVStore] hands back a store that answers, [saveScores] returns
    the very list that [addScore] without the remote service leaves the
    Manager with, for the same name, score and clock reading. *)
Theorem fallback_matches_blob_store (net : Manager.fetched) (now : Z) (mode : string)
    (name : jsval) (score : Z) (w : Manager.Browser) (kv : ScoresDb.Functions)
    (l : list ScoreEntry) :
  unavailable net ->
  Manager.getScores (Manager.this w) mode = Scores l ->
  ScoresDb.store kv !! ("scores_" +:+ mode) = Some (Stringified (Scores l)) \/
  (ScoresDb.store kv !! ("scores_" +:+ mode) = None /\ l = []) ->
  fst (ScoresDb.saveScores (Return tt) true true now mode name score kv) =
  Return (Manager.getScores
            (Manager.this (snd (Manager.addScore net now mode name score w))) mode).
Proof.
  intros Hnet Hl Hkv.
  rewrite (saveScores_run now mode name score kv l Hkv). simpl.
  rewrite addScore_fallback_this by exact Hnet. rewrite Hl.
  now rewrite getScores_with_scores.
Qed.

Lemma fallback_matches_blob_store_witness :
  fst (ScoresDb.saveScores (Return tt) true true 11 "easy" (VStr "K") 45 (functions ∅)) =
  Return (Manager.getScores
            (Manager.this (snd (Manager.addScore Manager.Rejected 11 "easy" (VStr "K") 45
                                  (fresh ∅)))) "easy").
Proof.
  apply (fallback_matches_blob_store Manager.Rejected 11 "easy" (VStr "K") 45 (fresh ∅)
           (functions ∅) []).
  - reflexivity.
  - reflexivity.
  - right. split; reflexivity.
Defined.

(** * The blob-backed function *)

(** An accepted POST once [getKVStore] has handed back a store that
    answers, step by step. *)
Lemma blob_post_run (now : Z) (mode : string) (name : jsval) (score : Z)
    (kv : ScoresDb.Functions) (held : list ScoreEntry) :
  mode <> "" -> truthy name = true ->
  ScoresDb.store kv !! ("scores_" +:+ mode) = Some (Stringified (Scores held)) \/
  (ScoresDb.store kv !! ("scores_" +:+ mode) = None /\ held = []) ->
  let kept := truncate (sort compareScores (held ++ [new_entry name score now])) in
  Blobs.handler (Return tt) true true true now (blob_post mode name score) kv =
  (Return {| statusCode := 200; body := Stringified (Scores kept) |},
   {| ScoresDb.store := <["scores_" +:+ mode := Stringified (Scores kept)]> (ScoresDb.store kv);
      ScoresDb.console_error := ScoresDb.console_error kv |}).
Proof.
  intros Hmode Hname Hkv kept. apply String.eqb_neq in Hmode.
  unfold Blobs.handler, blob_post. simpl. rewrite Hmode, Hname. simpl.
  unfold try_catch at 1. unfold bind at 1.
  rewrite (saveScores_run now mode name score kv held Hkv).
  run_store. rewrite lookup_insert_eq. reflexivity.
Qed.

(** A GET or an accepted POST when [getKVStore] throws: the handler's
    own [catch] answers 500 and nothing is read, written or logged. *)
Lemma blob_store_unobtainable (e : exn) (get_up set_up reread_up : bool) (now : Z)
    (mode : string) (name : jsval) (score : Z)
    (params : option (gmap string string)) (kv : ScoresDb.Functions) :
  mode <> "" -> truthy name = true ->
  Blobs.handler (Throw e) get_up set_up reread_up now (blob_post mode name score) kv =
    (Return {| statusCode := 500; body := Stringified (ErrorMsg "Server error") |}, kv) /\
  Blobs.handler (Throw e) get_up set_up reread_up now (blob_get params) kv =
    (Return {| statusCode := 500; body := Stringified (ErrorMsg "Server error") |}, kv).
Proof.
  intros Hmode Hname. apply String.eqb_neq in Hmode. split.
  - unfold Blobs.handler, blob_post. simpl. rewrite Hmode, Hname. reflexivity.
  - reflexivity.
Qed.

(** X23. Once [getKVStore] has handed back a store that answers, the
    function accepts a submission that has a non-empty mode and a truthy
    name: it answers 200 with the updated list of the mode, which obeys
    the RankedList invariant and is what the store then holds, whatever
    array the store held. When [getKVStore] throws, the same submission
    is answered with 500 and the store is left as it was. *)
Theorem blob_post_returns_ranked_list (now : Z) (mode : string) (name : jsval)
    (score : Z) (kv : ScoresDb.Functions) (held : list ScoreEntry) :
  mode <> "" -> truthy name = true ->
  ScoresDb.store kv !! ("scores_" +:+ mode) = Some (Stringified (Scores held)) \/
  (ScoresDb.store kv !! ("scores_" +:+ mode) = None /\ held = []) ->
  (exists (kept : list ScoreEntry) (kv' : ScoresDb.Functions),
     Blobs.handler (Return tt) true true true now (blob_post mode name score) kv =
       (Return {| statusCode := 200; body := Stringified (Scores kept) |}, kv') /\
     kept = truncate (sort compareScores (held ++ [new_entry name score now])) /\
     RankedList kept /\
     ScoresDb.store kv' !! ("scores_" +:+ mode) = Some (Stringified (Scores kept))) /\
  (forall e get_up set_up reread_up,
     Blobs.handler (Throw e) get_up set_up reread_up now (blob_post mode name score) kv =
       (Return {| statusCode := 500; body := Stringified (ErrorMsg "Server error") |}, kv)).
Proof.
  intros Hmode Hname Hkv. split.
  - eexists. eexists.
    split; [apply (blob_post_run now mode name score kv held); assumption|].
    split; [reflexivity|]. split; [apply ranked_after_push|]. simpl. apply lookup_insert_eq.
  - intros e get_up set_up reread_up.
    now apply (blob_store_unobtainable e get_up set_up reread_up now mode name score None kv).
Qed.

Lemma blob_post_returns_ranked_list_witness :
  exists (kept : list ScoreEntry) (kv' : ScoresDb.Functions),
    Blobs.handler (Return tt) true true true 11 (blob_post "easy" (VStr "K") 45)
      (functions {["scores_easy" := Stringified (Scores full_board)]}) =
      (Return {| statusCode := 200; body := Stringified (Scores kept) |}, kv') /\
    kept = truncate (sort compareScores (full_board ++ [new_entry (VStr "K") 45 11])) /\
    RankedList kept /\
    ScoresDb.store kv' !! ("scores_" +:+ "easy") = Some (Stringified (Scores kept)).
Proof.
  apply (blob_post_returns_ranked_list 11 "easy" (VStr "K") 45
           (functions {["scores_easy" := Stringified (Scores full_board)]}) full_board).
  - discriminate.
  - reflexivity.
  - left. reflexivity.
Defined.

(** X24. A submission without a mode, with an empty mode, without a
    truthy name or without a score is answered with 400, and neither
    the store nor the error log changes; the store is not even obtained
    or read. *)
Theorem blob_post_rejects_missing_fields (opened : outcome unit)
    (get_up set_up reread_up : bool) (now : Z)
    (f : Blobs.fields) (kv : ScoresDb.Functions) :
  Blobs.f_mode f = None \/ Blobs.f_mode f = Some "" \/
  truthy (Blobs.f_name f) = false \/ Blobs.f_score f = None ->
  Blobs.handler opened get_up set_up reread_up now
    {| Blobs.httpMethod := "POST"; Blobs.submitted := Some f;
       Blobs.queryStringParameters := None |} kv =
  (Return {| statusCode := 400;
             body := Stringified (ErrorMsg "Missing required fields") |}, kv).
Proof.
  intros H. unfold Blobs.handler, try_catch, bind, ret. simpl.
  destruct (Blobs.f_mode f) as [mode|], (Blobs.f_score f) as [score|]; try reflexivity.
  destruct H as [H | [H | [H | H]]]; try discriminate.
  - injection H as ->. reflexivity.
  - rewrite H. simpl. now rewrite orb_true_r.
Qed.

Lemma blob_post_rejects_missing_fields_witness :
  Blobs.handler (Return tt) true true true 11
    {| Blobs.httpMethod := "POST";
       Blobs.submitted := Some {| Blobs.f_mode := Some "easy"; Blobs.f_name := VUndefined;
                                  Blobs.f_score := Some 5%Z |};
       Blobs.queryStringParameters := None |} (functions ∅) =
  (Return {| statusCode := 400;
             body := Stringified (ErrorMsg "Missing required fields") |}, functions ∅).
Proof.
  apply (blob_post_rejects_missing_fields (Return tt) true true true 11
           {| Blobs.f_mode := Some "easy"; Blobs.f_name := VUndefined;
              Blobs.f_score := Some 5%Z |} (functions ∅)).
  right. right. left. reflexivity.
Defined.

(** X25. A GET of the blob-backed function never writes the store and
    its status tells only whether the store could be obtained. Once
    [getKVStore] has handed back the store the answer is 200, also when
    the store cannot be read or the stored string does not parse: the
    body is then the empty list. When [getKVStore] throws the answer is
    500 and nothing is logged. *)
Theorem blob_get_replies (opened : outcome unit) (get_up set_up reread_up : bool)
    (now : Z) (params : option (gmap string string)) (kv : ScoresDb.Functions) :
  exists (r : reply) (kv' : ScoresDb.Functions),
    Blobs.handler opened get_up set_up reread_up now (blob_get params) kv = (Return r, kv') /\
    ScoresDb.store kv' = ScoresDb.store kv /\
    (opened = Return tt ->
     exists d : json,
       r = {| statusCode := 200; body := Stringified d |} /\
       (reread_up = false \/
        (exists s, ScoresDb.store kv
                   !! ("scores_" +:+ Blobs.requested_mode (blob_get params))
                   = Some (Malformed s)) ->
        d = Scores [])) /\
    (forall e, opened = Throw e ->
     r = {| statusCode := 500; body := Stringified (ErrorMsg "Server error") |} /\
     kv' = kv).
Proof.
  destruct opened as [[]|e0].
  - set (mode := Blobs.requested_mode (blob_get params)).
    run_blobs. unfold JSON_stringify.
    change (Blobs.requested_mode _) with mode.
    destruct reread_up; simpl.
    + destruct (ScoresDb.store kv !! ("scores_" +:+ mode)) as [[d|s]|] eqn:E; simpl.
      * eexists. eexists. split; [reflexivity|]. split; [reflexivity|].
        split; [|intros e He; discriminate He].
        intros _. eexists. split; [reflexivity|]. intros [H | [s Hs]]; congruence.
      * destruct (String.eqb s ""); simpl;
          eexists; eexists; (split; [reflexivity|]); (split; [reflexivity|]);
          (split; [|intros e He; discriminate He]);
          intros _; eexists; split; reflexivity.
      * eexists. eexists. split; [reflexivity|]. split; [reflexivity|].
        split; [|intros e He; discriminate He].
        intros _. eexists. split; reflexivity.
    + eexists. eexists. split; [reflexivity|]. split; [reflexivity|].
      split; [|intros e He; discriminate He].
      intros _. eexists. split; reflexivity.
  - eexists. eexists. split; [reflexivity|]. split; [reflexivity|].
    split; [intros H; discriminate H|]. intros e [= <-]. split; reflexivity.
Qed.

Lemma blob_get_replies_witness :
  exists (r : reply) (kv' : ScoresDb.Functions),
    Blobs.handler (Return tt) true true false 11 (blob_get (Some {["mode" := "easy"]}))
      (functions {["scores_easy" := Stringified (Scores full_board)]}) = (Return r, kv') /\
    r = {| statusCode := 200; body := Stringified (Scores []) |}.
Proof.
  destruct (blob_get_replies (Return tt) true true false 11 (Some {["mode" := "easy"]})
              (functions {["scores_easy" := Stringified (Scores full_board)]}))
    as (r & kv' & Hrun & _ & Hopen & _).
  exists r, kv'. split; [exact Hrun|].
  destruct (Hopen eq_refl) as (d & -> & Hempty).
  rewrite Hempty; [reflexivity|]. left. reflexivity.
Defined.

(** X26. A submission that was stored can still be answered with the
    empty list: once [getKVStore] has handed back the store, when the
    read and the write inside [saveScores] go through and the read that
    follows fails, the function answers 200 with the empty list while
    the store holds the updated list of the mode. *)
Theorem blob_post_reread_failure (now : Z) (mode : string) (name : jsval) (score : Z)
    (kv : ScoresDb.Functions) (held : list ScoreEntry) :
  mode <> "" -> truthy name = true ->
  ScoresDb.store kv !! ("scores_" +:+ mode) = Some (Stringified (Scores held)) \/
  (ScoresDb.store kv !! ("scores_" +:+ mode) = None /\ held = []) ->
  exists kv' : ScoresDb.Functions,
    Blobs.handler (Return tt) true true false now (blob_post mode name score) kv =
      (Return {| statusCode := 200; body := Stringified (Scores []) |}, kv') /\
    ScoresDb.store kv' !! ("scores_" +:+ mode) =
      Some (Stringified
              (Scores (truncate (sort compareScores (held ++ [new_entry name score now]))))).
Proof.
  intros Hmode Hname Hkv. apply String.eqb_neq in Hmode.
  unfold Blobs.handler, blob_post. simpl. rewrite Hmode, Hname. simpl.
  unfold try_catch at 1. unfold bind at 1.
  rewrite (saveScores_run now mode name score kv held Hkv).
  run_store. eexists. split; [reflexivity|]. simpl. apply lookup_insert_eq.
Qed.

Lemma blob_post_reread_failure_witness :
  exists kv' : ScoresDb.Functions,
    Blobs.handler (Return tt) true true false 11 (blob_post "easy" (VStr "K") 45)
      (functions ∅) =
      (Return {| statusCode := 200; body := Stringified (Scores []) |}, kv') /\
    ScoresDb.store kv' !! ("scores_" +:+ "easy") =
      Some (Stringified
              (Scores (truncate (sort compareScores ([] ++ [new_entry (VStr "K") 45 11]))))).
Proof.
  apply (blob_post_reread_failure 11 "easy" (VStr "K") 45 (functions ∅) []).
  - discriminate.
  - reflexivity.
  - right. split; reflexivity.
Defined.

(** X27. The blob-backed function answers every event with a reply, and
    the store is written only by a POST that is answered with 200: a
    reply with any other status, and every reply to another method,
    leaves the stored values as they were. *)
Theorem blob_handler_writes_only_on_200 (opened : outcome unit)
    (get_up set_up reread_up : bool) (now : Z)
    (event : Blobs.event) (kv : ScoresDb.Functions) :
  exists (r : reply) (kv' : ScoresDb.Functions),
    Blobs.handler opened get_up set_up reread_up now event kv = (Return r, kv') /\
    (ScoresDb.store kv' = ScoresDb.store kv \/
     (Blobs.httpMethod event = "POST" /\ statusCode r = 200%Z)).
Proof.
  unfold Blobs.handler.
  destruct (String.eqb (Blobs.httpMethod event) "GET") eqn:Eg.
  - set (mode := Blobs.requested_mode event).
    destruct opened as [[]|e0];
      [|run_store; eexists; eexists; (split; [reflexivity|]); now left].
    run_store.
    destruct reread_up; simpl;
      [destruct (ScoresDb.store kv !! ("scores_" +:+ mode)) as [[d|s]|]; simpl;
       try destruct (String.eqb s ""); simpl|];
      eexists; eexists; (split; [reflexivity|]); now left.
  - destruct (String.eqb (Blobs.httpMethod event) "POST") eqn:Ep.
    + apply String.eqb_eq in Ep.
      destruct (Blobs.submitted event) as [f|];
        [|run_store; eexists; eexists; (split; [reflexivity|]); now left].
      destruct (Blobs.f_mode f) as [mode|], (Blobs.f_score f) as [score|];
        try (run_store; eexists; eexists; (split; [reflexivity|]); now left).
      destruct (String.eqb mode "" || negb (truthy (Blobs.f_name f)));
        [run_store; eexists; eexists; (split; [reflexivity|]); now left|].
      destruct opened as [[]|e0];
        [|run_store; eexists; eexists; (split; [reflexivity|]); now left].
      run_store.
      destruct get_up; simpl;
        [destruct (ScoresDb.store kv !! ("scores_" +:+ mode)) as [[[l| |msg]|s]|]; simpl;
         try destruct (String.eqb s ""); simpl|];
        destruct set_up; simpl;
        try (eexists; eexists; (split; [reflexivity|]); now left);
        destruct reread_up; simpl; rewrite ?lookup_insert_eq; simpl;
        eexists; eexists; (split; [reflexivity|]); right; split; auto.
    + run_store. eexists. eexists. split; [reflexivity|]. now left.
Qed.

(** * The Manager in front of the blob-backed function *)

(** X28. Served by the blob-backed function, [addScore] ends where its
    own fallback would, whether or not the store can be obtained. When
    the Manager holds for a mode the array the store holds for it and
    [getKVStore] hands back a store that answers, the submission is
    answered with 200 and the Manager then holds a ranked list, with
    the fields and the cache that the fallback leaves for the clock
    reading of the function. When [getKVStore] throws, the submission is
    answered with 500, the store is left as it was, and [addScore] is
    its fallback. *)
Theorem addScore_through_blob_function (now later : Z) (mode : string) (name : jsval)
    (score : Z) (w : Manager.Browser) (kv : ScoresDb.Functions) (l : list ScoreEntry) :
  mode <> "" -> truthy name = true ->
  Manager.getScores (Manager.this w) mode = Scores l ->
  ScoresDb.store kv !! ("scores_" +:+ mode) = Some (Stringified (Scores l)) \/
  (ScoresDb.store kv !! ("scores_" +:+ mode) = None /\ l = []) ->
  (exists (r : reply) (kv' : ScoresDb.Functions) (w' : Manager.Browser),
     Blobs.handler (Return tt) true true true now (blob_post mode name score) kv
     = (Return r, kv') /\
     statusCode r = 200%Z /\
     Manager.addScore (served r) later mode name score w = (Return tt, w') /\
     holds_ranked (Manager.getScores (Manager.this w') mode) /\
     Manager.this w' =
       Manager.this (snd (Manager.addScore Manager.Rejected now mode name score w)) /\
     Manager.localStorage w' =
       Manager.localStorage (snd (Manager.addScore Manager.Rejected now mode name score w))) /\
  (forall e get_up set_up reread_up,
   exists r : reply,
     Blobs.handler (Throw e) get_up set_up reread_up now (blob_post mode name score) kv
     = (Return r, kv) /\
     statusCode r = 500%Z /\
     Manager.this (snd (Manager.addScore (served r) later mode name score w)) =
       Manager.this (snd (Manager.addScore Manager.Rejected later mode name score w)) /\
     Manager.localStorage (snd (Manager.addScore (served r) later mode name score w)) =
       Manager.localStorage (snd (Manager.addScore Manager.Rejected later mode name score w))).
Proof.
  intros Hmode Hname Hl Hkv. split.
  - eexists. eexists. eexists.
    split; [apply (blob_post_run now mode name score kv l); assumption|].
    split; [reflexivity|]. unfold served. simpl.
    split; [apply addScore_adopts_body; lia|]. simpl.
    destruct (addScore_fallback_run Manager.Rejected now mode name score w l eq_refl Hl)
      as (trace & ->). simpl.
    split; [|split; reflexivity].
    rewrite getScores_with_scores. eexists. split; [reflexivity|]. apply ranked_after_push.
  - intros e get_up set_up reread_up. eexists.
    split; [now apply (blob_store_unobtainable e get_up set_up reread_up now mode name
                         score None kv)|].
    split; [reflexivity|]. unfold served. simpl.
    destruct (addScore_fallback_run
                (Manager.Response 500 (Stringified (ErrorMsg "Server error")))
                later mode name score w l eq_refl Hl) as (trace & ->).
    destruct (addScore_fallback_run Manager.Rejected later mode name score w l eq_refl Hl)
      as (trace' & ->).
    split; reflexivity.
Qed.

Lemma addScore_through_blob_function_witness :
  exists (r : reply) (kv' : ScoresDb.Functions) (w' : Manager.Browser),
    Blobs.handler (Return tt) true true true 11 (blob_post "easy" (VStr "K") 45)
      (functions ∅) = (Return r, kv') /\
    statusCode r = 200%Z /\
    Manager.addScore (served r) 12 "easy" (VStr "K") 45 (fresh ∅) = (Return tt, w') /\
    holds_ranked (Manager.getScores (Manager.this w') "easy") /\
    Manager.this w' =
      Manager.this (snd (Manager.addScore Manager.Rejected 11 "easy" (VStr "K") 45 (fresh ∅))) /\
    Manager.localStorage w' =
      Manager.localStorage
        (snd (Manager.addScore Manager.Rejected 11 "easy" (VStr "K") 45 (fresh ∅))).
Proof.
  apply (addScore_through_blob_function 11 12 "easy" (VStr "K") 45 (fresh ∅) (functions ∅) []).
  - discriminate.
  - reflexivity.
  - reflexivity.
  - right. split; reflexivity.
Defined.

(** X29. A store that is obtained but cannot be read empties the
    client: the GET of the blob-backed function then still answers 200,
    with the empty list, so [loadScores] holds the empty array for the
    mode and overwrites the cache entry of the mode with it, whatever
    the store, the Manager and the cache held. When it is [getKVStore]
    that throws, the GET is answered with 500 and [loadScores] does what
    it does for a rejected request: the cache is read, not written. *)
Theorem unreadable_store_empties_the_client (get_up set_up : bool) (now : Z)
    (mode : string) (w : Manager.Browser) (kv : ScoresDb.Functions) :
  (exists (r : reply) (kv' : ScoresDb.Functions) (w' : Manager.Browser),
     Blobs.handler (Return tt) get_up set_up false now
       (blob_get (Some {["mode" := mode]})) kv = (Return r, kv') /\
     statusCode r = 200%Z /\
     Manager.loadScores (served r) mode w = (Return tt, w') /\
     Manager.getScores (Manager.this w') mode = Scores [] /\
     Manager.localStorage w' !! ("leaderboard_" +:+ mode) = Some (Stringified (Scores []))) /\
  (forall e reread_up,
   exists r : reply,
     Blobs.handler (Throw e) get_up set_up reread_up now
       (blob_get (Some {["mode" := mode]})) kv = (Return r, kv) /\
     statusCode r = 500%Z /\
     fst (Manager.loadScores (served r) mode w) =
       fst (Manager.loadScores Manager.Rejected mode w) /\
     Manager.this (snd (Manager.loadScores (served r) mode w)) =
       Manager.this (snd (Manager.loadScores Manager.Rejected mode w)) /\
     Manager.localStorage (snd (Manager.loadScores (served r) mode w)) =
       Manager.localStorage w).
Proof.
  split.
  - eexists. eexists. eexists. split.
    { run_blobs. reflexivity. }
    split; [reflexivity|]. unfold served. simpl.
    split; [apply loadScores_online_run; lia|]. simpl.
    split; [apply getScores_with_scores | apply lookup_insert_eq].
  - intros e reread_up. eexists. split; [reflexivity|]. split; [reflexivity|].
    unfold served. simpl. split; [|split].
    + run_manager.
      destruct (Manager.localStorage w !! ("leaderboard_" +:+ mode)) as [[d|s]|]; simpl;
        try destruct (String.eqb s ""); simpl;
        destruct (String.eqb mode "easy"); reflexivity.
    + rewrite (proj1 (loadScores_offline Manager.Rejected mode w eq_refl)).
      exact (proj1 (loadScores_offline
                      (Manager.Response 500 (JSON_stringify (ErrorMsg "Server error")))
                      mode w eq_refl)).
    + exact (proj2 (loadScores_offline
                      (Manager.Response 500 (JSON_stringify (ErrorMsg "Server error")))
                      mode w eq_refl)).
Qed.
